(** * The vLLM request handler of TorchServe ([ts/torch_handler/vllm_handler.py])

    A shallow embedding of [VLLMHandler] and the properties its
    specification states about it.  Python values, dictionaries and
    exceptions are modelled as the handler uses them; the inference engine,
    [pathlib] and the clock are parameters of the development. *)

From Stdlib Require Import ZArith NArith List String Ascii Lia.
From Stdlib.Strings Require Import Byte.
From stdpp Require Import base option list gmap fin_maps.

Local Open Scope Z_scope.
Local Open Scope string_scope.
Local Open Scope list_scope.
#[local] Set Warnings "-register-all".

(** ** Python values *)

(** A Python [str] is a sequence of Unicode code points. *)
Abbreviation pystr := (list N).

(** The [str] written as the ASCII literal [s] in the source. *)
Definition lit (s : string) : pystr :=
  List.map N_of_ascii (list_ascii_of_string s).
#[global] Arguments lit : simpl never.

(** The values that requests and deployment configuration are made of.
    [VBytes] stands for both [bytes] and [bytearray]; [VPath p] is a
    [pathlib.Path] whose [str()] is [p]; a [dict] has [str] keys. *)
Inductive PyVal : Type :=
| VNone
| VBool (b : bool)
| VInt (z : Z)
| VStr (s : pystr)
| VBytes (bs : list byte)
| VPath (p : pystr)
| VList (l : list PyVal)
| VDict (d : gmap pystr PyVal).

(** The exceptions the handler can raise; [EngineError] is whatever the
    engine raises when it cannot be constructed. *)
Inductive exn : Type :=
| AssertionError
| AttributeError
| TypeError
| IndexError
| UnboundLocalError (var : string)
| UnicodeDecodeError
| EngineError.

Inductive Res (A : Type) : Type :=
| Ok (a : A)
| Raise (e : exn).
Arguments Ok {A} a.
Arguments Raise {A} e.

#[global] Instance Res_ret : MRet Res := @Ok.
#[global] Instance Res_bind : MBind Res := λ A B f r,
  match r with
  | Ok a => f a
  | Raise e => Raise e
  end.

(** [assert c, msg]; the message is not kept. *)
Definition py_assert (c : bool) : Res unit :=
  if c then Ok tt else Raise AssertionError.

(** [bool(v)] *)
Definition py_truthy (v : PyVal) : bool :=
  match v with
  | VNone => false
  | VBool b => b
  | VInt z => negb (Z.eqb z 0)
  | VStr s => negb (Nat.eqb (length s) 0)
  | VBytes bs => negb (Nat.eqb (length bs) 0)
  | VPath _ => true
  | VList l => negb (Nat.eqb (length l) 0)
  | VDict d => negb (Nat.eqb (size d) 0)
  end.

(** [a or b] *)
Definition py_or (a b : PyVal) : PyVal :=
  if py_truthy a then a else b.

(** [len(v)] *)
Definition py_len (v : PyVal) : Res nat :=
  match v with
  | VStr s => Ok (length s)
  | VBytes bs => Ok (length bs)
  | VList l => Ok (length l)
  | VDict d => Ok (size d)
  | VNone | VBool _ | VInt _ | VPath _ => Raise TypeError
  end.

(** [o.get(k, default)] for a [str] key: only a [dict] has [get]. *)
Definition py_get (o : PyVal) (k : pystr) (dflt : PyVal) : Res PyVal :=
  match o with
  | VDict d => Ok (default dflt (d !! k))
  | _ => Raise AttributeError
  end.

(** [o.get(key, default)] for a key that is itself a value.  The keys of
    a [dict] are [str]s, so any other hashable key is absent; a [list] or
    a [dict] is unhashable. *)
Definition py_get_key (o key dflt : PyVal) : Res PyVal :=
  match o with
  | VDict d =>
      match key with
      | VStr k => Ok (default dflt (d !! k))
      | VList _ | VDict _ => Raise TypeError
      | _ => Ok dflt
      end
  | _ => Raise AttributeError
  end.

(** [config.items()] *)
Definition py_items (config : PyVal) : Res (gmap pystr PyVal) :=
  match config with
  | VDict d => Ok d
  | _ => Raise AttributeError
  end.

(** [l[0]] and [l[-1]] on a list. *)
Definition py_first {A} (l : list A) : Res A :=
  match l with
  | x :: _ => Ok x
  | [] => Raise IndexError
  end.

Definition py_last {A} (l : list A) : Res A :=
  match last l with
  | Some x => Ok x
  | None => Raise IndexError
  end.

(** *** [bytes.decode("utf-8")]

    The strict decoder of the Unicode standard: shortest forms only, no
    surrogates, nothing above U+10FFFF. *)
Definition in_range (lo hi b : N) : bool := (N.leb lo b && N.leb b hi)%bool.

Definition cont (b : N) : N := N.land b 0x3F.

Fixpoint utf8_decode (bs : list N) : option pystr :=
  match bs with
  | [] => Some []
  | b0 :: r0 =>
      if N.ltb b0 0x80 then cons b0 <$> utf8_decode r0
      else if in_range 0xC2 0xDF b0 then
        match r0 with
        | b1 :: r1 =>
            if in_range 0x80 0xBF b1
            then cons (N.lor (N.shiftl (N.land b0 0x1F) 6) (cont b1))
                   <$> utf8_decode r1
            else None
        | _ => None
        end
      else if in_range 0xE0 0xEF b0 then
        match r0 with
        | b1 :: b2 :: r2 =>
            let lo := if N.eqb b0 0xE0 then 0xA0%N else 0x80%N in
            let hi := if N.eqb b0 0xED then 0x9F%N else 0xBF%N in
            if (in_range lo hi b1 && in_range 0x80 0xBF b2)%bool
            then cons (N.lor (N.shiftl (N.land b0 0x0F) 12)
                         (N.lor (N.shiftl (cont b1) 6) (cont b2)))
                   <$> utf8_decode r2
            else None
        | _ => None
        end
      else if in_range 0xF0 0xF4 b0 then
        match r0 with
        | b1 :: b2 :: b3 :: r3 =>
            let lo := if N.eqb b0 0xF0 then 0x90%N else 0x80%N in
            let hi := if N.eqb b0 0xF4 then 0x8F%N else 0xBF%N in
            if (in_range lo hi b1 && in_range 0x80 0xBF b2
                && in_range 0x80 0xBF b3)%bool
            then cons (N.lor (N.shiftl (N.land b0 0x07) 18)
                         (N.lor (N.shiftl (cont b1) 12)
                            (N.lor (N.shiftl (cont b2) 6) (cont b3))))
                   <$> utf8_decode r3
            else None
        | _ => None
        end
      else None
  end.

Definition py_decode_utf8 (bs : list byte) : Res pystr :=
  match utf8_decode (List.map Byte.to_N bs) with
  | Some s => Ok s
  | None => Raise UnicodeDecodeError
  end.

(** ** Engine and host data *)

(** [vllm.lora.request.LoRARequest(lora_name, lora_int_id, lora_path)] *)
Record LoRARequest : Type := mkLoRARequest {
  lora_name : PyVal;
  lora_int_id : Z;
  lora_path : pystr
}.

(** One completion of a [RequestOutput]. *)
Record CompletionOutput : Type := mkCompletionOutput {
  text : pystr;
  token_ids : list Z
}.

(** An output event of the engine's generator. *)
Record RequestOutput : Type := mkRequestOutput {
  finished : bool;
  outputs : list CompletionOutput
}.

(** An object is the dictionary of its attributes, [vars(obj)]. *)
Abbreviation attrs := (gmap pystr PyVal).

(** A serialized JSON text, represented by the document it encodes:
    [json.dumps] and [model_dump_json] build one, parsing reads the
    document back. *)
Inductive JsonText : Type :=
| json_dumps (doc : PyVal).

Definition json_loads (j : JsonText) : PyVal :=
  match j with json_dumps doc => doc end.

(** A call of [send_intermediate_predict_response(ret, req_id_map,
    message, code, context)]. *)
Record Intermediate : Type := mkIntermediate {
  im_ret : list JsonText;
  im_req_ids : list pystr;
  im_message : pystr;
  im_code : Z
}.

(** A call of [vllm_engine.generate(prompt, params, request_id, lora)]. *)
Record GenerateCall : Type := mkGenerateCall {
  gc_prompt : PyVal;
  gc_params : attrs;
  gc_request_id : pystr;
  gc_lora : option LoRARequest
}.

(** The host's [context], as far as the handler reads it; the request
    identifiers are [str]s, indexed by position in the batch. *)
Record Context : Type := mkContext {
  system_properties : PyVal;
  model_yaml_config : PyVal;
  request_ids : list pystr
}.

(** What the handler takes from outside the repository: [pathlib]
    ([str(Path(a).joinpath(b))] and [Path.exists]), the attributes of a
    freshly constructed [SamplingParams()] and [AsyncEngineArgs] (those
    other than [model]), whether [AsyncLLMEngine.from_engine_args]
    constructs an engine from given arguments or raises, the events the
    engine generates for a call, and the clock read by
    [int(time.time())]. *)
Record Env : Type := mkEnv {
  joinpath : pystr → pystr → pystr;
  path_exists : pystr → bool;
  SamplingParams_defaults : attrs;
  AsyncEngineArgs_defaults : attrs;
  from_engine_args : attrs → Res unit;
  engine_generate : GenerateCall → list RequestOutput;
  clock : Z
}.

(** ** The handler's state *)

(** The fields set by [__init__]; [vllm_engine] is [None] until an engine
    is constructed and then holds the arguments it was built from. *)
Record VLLMHandler : Type := mkVLLMHandler {
  vllm_engine : option attrs;
  model_dir : PyVal;
  lora_ids : gmap pystr Z;
  adapters : PyVal;
  initialized : bool
}.

(** [VLLMHandler()] *)
Definition new_handler : VLLMHandler :=
  {| vllm_engine := None; model_dir := VNone; lora_ids := ∅;
     adapters := VNone; initialized := false |}.

(** The handler together with what the host and the engine have observed
    of it: intermediate responses pushed and generation calls made, both in
    order. *)
Record World : Type := mkWorld {
  self : VLLMHandler;
  sent : list Intermediate;
  generated : list GenerateCall
}.

Definition new_world : World :=
  {| self := new_handler; sent := []; generated := [] |}.

(** Computations that read and update the world and may raise; what was
    done before an exception stays done. *)
Definition M (A : Type) : Type := World → Res A * World.

#[global] Instance M_ret : MRet M := λ A a w, (Ok a, w).
#[global] Instance M_bind : MBind M := λ A B f c w,
  match c w with
  | (Ok a, w') => f a w'
  | (Raise e, w') => (Raise e, w')
  end.

Definition lift {A} (r : Res A) : M A := λ w, (r, w).
Definition get_self : M VLLMHandler := λ w, (Ok (self w), w).
Definition put_self (h : VLLMHandler) : M unit :=
  λ w, (Ok tt, {| self := h; sent := sent w; generated := generated w |}).
Definition push_sent (i : Intermediate) : M unit :=
  λ w, (Ok tt, {| self := self w; sent := sent w ++ [i];
                  generated := generated w |}).
Definition push_generated (c : GenerateCall) : M unit :=
  λ w, (Ok tt, {| self := self w; sent := sent w;
                  generated := generated w ++ [c] |}).

(** ** The methods of [VLLMHandler] *)

Section Handler.
Context (env : Env).

(** [_set_attr_value(obj, config)]: [setattr] on a plain object writes
    the attribute dictionary that [vars(obj)] returns.  The keys of
    [config] are distinct, so the order in which its items are visited
    does not show in the result. *)
Definition set_attr_value (obj : attrs) (config : gmap pystr PyVal) : attrs :=
  map_fold (λ k v (items : attrs),
              match items !! k with
              | Some _ => <[k := v]> items
              | None => items
              end) obj config.

(** [_get_sampling_params(req_data)] *)
Definition get_sampling_params (req_data : PyVal) : Res attrs :=
  let sampling_params := SamplingParams_defaults env in
  config ← py_items req_data;
  mret (set_attr_value sampling_params config).

(** [pathlib.Path(base).joinpath(arg)]: both must be path-like. *)
Definition py_joinpath (base arg : PyVal) : Res pystr :=
  match base, arg with
  | (VStr a | VPath a), (VStr b | VPath b) => Ok (joinpath env a b)
  | _, _ => Raise TypeError
  end.

(** [self.lora_ids.setdefault(adapter_name, len(self.lora_ids) + 1)].
    The name is a [str] whenever this is reached, since only a [str] key
    finds an adapter path. *)
Definition lora_ids_setdefault (adapter_name : PyVal) : M Z :=
  match adapter_name with
  | VStr name =>
      slf ← get_self;
      match lora_ids slf !! name with
      | Some lora_id => mret lora_id
      | None =>
          let lora_id := Z.of_nat (size (lora_ids slf)) + 1 in
          put_self {| vllm_engine := vllm_engine slf;
                      model_dir := model_dir slf;
                      lora_ids := <[name := lora_id]> (lora_ids slf);
                      adapters := adapters slf;
                      initialized := initialized slf |};;
          mret lora_id
      end
  | _ => lift (Raise TypeError)
  end.

(** [_get_lora_request(req_data)] *)
Definition get_lora_request (req_data : PyVal) : M (option LoRARequest) :=
  adapter_name ← lift (py_get req_data (lit "lora_adapter") (VStr []));
  n ← lift (py_len adapter_name);
  if Nat.ltb 0 n then
    slf ← get_self;
    adapter_path ← lift (py_get_key (adapters slf) adapter_name (VStr []));
    m ← lift (py_len adapter_path);
    lift (py_assert (Nat.ltb 0 m));;
    lora_id ← lora_ids_setdefault adapter_name;
    adapter_path ← lift (py_joinpath (model_dir slf) adapter_path);
    mret (Some (mkLoRARequest adapter_name lora_id adapter_path))
  else mret None.

(** The model passed to [AsyncEngineArgs(model=model)]: the first part of
    [_get_vllm_engine_config], up to the construction of the arguments. *)
Definition resolve_model (slf : VLLMHandler) (handler_config : PyVal) : Res PyVal :=
  vllm_engine_params ← py_get handler_config (lit "vllm_engine_config") (VDict ∅);
  model ← py_get vllm_engine_params (lit "model") (VDict ∅);
  n ← py_len model;
  if Nat.eqb n 0 then
    model_path ← py_get handler_config (lit "model_path") (VDict ∅);
    m ← py_len model_path;
    py_assert (Nat.ltb 0 m);;
    model ← py_joinpath (model_dir slf) model_path;
    if negb (path_exists env model) then mret model_path
    else mret (VPath model)
  else mret model.

(** [AsyncEngineArgs(model=model)] *)
Definition AsyncEngineArgs (model : PyVal) : attrs :=
  <[lit "model" := model]> (AsyncEngineArgs_defaults env).

(** [_get_vllm_engine_config(handler_config)] *)
Definition get_vllm_engine_config (slf : VLLMHandler) (handler_config : PyVal)
  : Res attrs :=
  model ← resolve_model slf handler_config;
  vllm_engine_params ← py_get handler_config (lit "vllm_engine_config") (VDict ∅);
  let vllm_engine_config := AsyncEngineArgs model in
  config ← py_items vllm_engine_params;
  mret (set_attr_value vllm_engine_config config).

(** [initialize(ctx)]: the fields are assigned one after the other, so
    an exception leaves those already assigned. *)
Definition initialize (ctx : Context) : M unit :=
  slf ← get_self;
  dir ← lift (py_get (system_properties ctx) (lit "model_dir") VNone);
  let slf := {| vllm_engine := vllm_engine slf; model_dir := dir;
                lora_ids := lora_ids slf; adapters := adapters slf;
                initialized := initialized slf |} in
  put_self slf;;
  handler_config ← lift (py_get (model_yaml_config ctx) (lit "handler") (VDict ∅));
  vllm_engine_config ← lift (get_vllm_engine_config slf handler_config);
  handler_config ← lift (py_get (model_yaml_config ctx) (lit "handler") (VDict ∅));
  adapters ← lift (py_get handler_config (lit "adapters") (VDict ∅));
  let slf := {| vllm_engine := vllm_engine slf; model_dir := model_dir slf;
                lora_ids := lora_ids slf; adapters := adapters;
                initialized := initialized slf |} in
  put_self slf;;
  lift (from_engine_args env vllm_engine_config);;
  let slf := {| vllm_engine := Some vllm_engine_config;
                model_dir := model_dir slf; lora_ids := lora_ids slf;
                adapters := adapters; initialized := initialized slf |} in
  put_self slf;;
  put_self {| vllm_engine := vllm_engine slf; model_dir := model_dir slf;
              lora_ids := lora_ids slf; adapters := adapters;
              initialized := true |}.

(** [prepare_completion_request(request)] *)
Definition prepare_completion_request (request : PyVal)
  : M (PyVal * PyVal * attrs * option LoRARequest) :=
  prompt ← lift (py_get request (lit "prompt") VNone);
  stream ← lift (py_get request (lit "stream") (VBool false));
  sampling_params ← lift (get_sampling_params request);
  lora_request ← get_lora_request request;
  mret (prompt, stream, sampling_params, lora_request).

(** [preprocess(requests, context)]; the logging of the request header is
    left out. *)
Definition preprocess (requests : list PyVal) (context : Context)
  : M (list (PyVal * PyVal * attrs * option LoRARequest)) :=
  lift (py_assert (Nat.eqb (length requests) 1));;
  req_data ← lift (py_first requests);
  data ← lift (d ← py_get req_data (lit "data") VNone;
               if py_truthy d then mret d
               else py_get req_data (lit "body") VNone);
  data ← lift (match data with
               | VBytes bs => s ← py_decode_utf8 bs; mret (VStr s)
               | _ => mret data
               end);
  r ← prepare_completion_request data;
  mret [r].

(** The local variables of [inference] that the loop assigns; [None] is a
    variable not yet bound. *)
Record Locals : Type := mkLocals {
  text_len : nat;
  output : option RequestOutput;
  result : option PyVal
}.

(** Reading a local variable. *)
Definition py_local {A} (var : string) (v : option A) : Res A :=
  match v with
  | Some a => Ok a
  | None => Raise (UnboundLocalError var)
  end.

(** The [dict] [{"text": t, "tokens": tok}] assembled for a streamed
    event. *)
Definition chunk (t : pystr) (tok : Z) : PyVal :=
  VDict (<[lit "text" := VStr t]> (<[lit "tokens" := VInt tok]> ∅)).

(** One iteration of [async for output in generator]. *)
Definition inference_step (context : Context) (stream : PyVal)
    (loc : Locals) (out : RequestOutput) : M Locals :=
  if (negb (finished out) && py_truthy stream)%bool then
    o ← lift (py_first (outputs out));
    tok ← lift (py_last (token_ids o));
    let res := chunk (drop (text_len loc) (text o)) tok in
    push_sent (mkIntermediate [json_dumps res] (request_ids context)
                 (lit "Result") 200);;
    mret {| text_len := length (text o); output := Some out;
            result := Some res |}
  else
    mret {| text_len := text_len loc; output := Some out;
            result := result loc |}.

(** The loop over the events of the generator. *)
Fixpoint inference_loop (context : Context) (stream : PyVal)
    (generator : list RequestOutput) (loc : Locals) : M Locals :=
  match generator with
  | [] => mret loc
  | out :: rest =>
      loc' ← inference_step context stream loc out;
      inference_loop context stream rest loc'
  end.

(** [CompletionResponseChoice(index, text, logprobs)], [UsageInfo(...)]
    and [CompletionResponse(...)] as the documents [model_dump_json]
    writes, with the fields the handler sets. *)
Definition CompletionResponseChoice (index : Z) (txt : pystr) (logprobs : PyVal)
  : PyVal :=
  VDict (<[lit "index" := VInt index]>
         (<[lit "text" := VStr txt]>
          (<[lit "logprobs" := logprobs]> ∅))).

Definition UsageInfo (prompt_tokens completion_tokens total_tokens : Z) : PyVal :=
  VDict (<[lit "prompt_tokens" := VInt prompt_tokens]>
         (<[lit "completion_tokens" := VInt completion_tokens]>
          (<[lit "total_tokens" := VInt total_tokens]> ∅))).

Definition CompletionResponse (id : pystr) (created : Z) (model : pystr)
    (choices : list PyVal) (usage : PyVal) : PyVal :=
  VDict (<[lit "id" := VStr id]>
         (<[lit "created" := VInt created]>
          (<[lit "model" := VStr model]>
           (<[lit "choices" := VList choices]>
            (<[lit "usage" := usage]> ∅))))).

(** [self.vllm_engine.generate]: [None] has no [generate]. *)
Definition engine_generate_of (slf : VLLMHandler) : Res unit :=
  match vllm_engine slf with
  | Some _ => Ok tt
  | None => Raise AttributeError
  end.

(** [inference(input_batch, context)]; the debug log is left out. *)
Definition inference
    (input_batch : list (PyVal * PyVal * attrs * option LoRARequest))
    (context : Context) : M (list JsonText) :=
  '(prompt, stream, params, lora) ← lift (py_first input_batch);
  slf ← get_self;
  lift (engine_generate_of slf);;
  request_id ← lift (py_first (request_ids context));
  let call := mkGenerateCall prompt params request_id lora in
  push_generated call;;
  let generator := engine_generate env call in
  loc ← inference_loop context stream generator
          {| text_len := 0; output := None; result := None |};
  if negb (py_truthy stream) then
    out ← lift (py_local "output" (output loc));
    o ← lift (py_first (outputs out));
    let choices := [CompletionResponseChoice 0 (text o) VNone] in
    let usage := UsageInfo 0 0 0 in
    let res := CompletionResponse request_id (clock env) (lit "model_name")
                 choices usage in
    mret [json_dumps res]
  else
    res ← lift (py_local "result" (result loc));
    mret [json_dumps res].

(** [postprocess(inference_outputs)] *)
Definition postprocess (inference_outputs : list JsonText) : M (list JsonText) :=
  mret inference_outputs.

(** [handle(data, context)]; the handler-time metric is left out. *)
Definition handle (data : list PyVal) (context : Context) : M (list JsonText) :=
  data_preprocess ← preprocess data context;
  output ← inference data_preprocess context;
  postprocess output.

End Handler.

(** * The vocabulary of the properties *)

(** ** Preprocessing *)

(** The payload of a request item: [req_data.get("data") or
    req_data.get("body")]. *)
Definition payload_of (item : attrs) : PyVal :=
  py_or (default VNone (item !! lit "data")) (default VNone (item !! lit "body")).

(** The tuple [prepare_completion_request] builds from a mapping, given
    the adapter reference. *)
Definition prepared (env : Env) (req : attrs) (lora : option LoRARequest)
  : PyVal * PyVal * attrs * option LoRARequest :=
  (default VNone (req !! lit "prompt"),
   default (VBool false) (req !! lit "stream"),
   set_attr_value (SamplingParams_defaults env) req,
   lora).

(** ** The permissive merge *)

(** The engine section of the specification's example:
    [{"vllm_engine_config": {"model": X, "unknown_field": 1}}]. *)
Definition merge_example (X : pystr) : PyVal :=
  VDict (<[lit "vllm_engine_config" :=
             VDict (<[lit "model" := VStr X]>
                    (<[lit "unknown_field" := VInt 1]> ∅))]> ∅).

(** ** Adapter identifiers *)


(** How one resolution changes the identifier table: not at all, or by
    giving an absent name the next identifier. *)
Definition table_step (m m' : gmap pystr Z) : Prop :=
  m' = m ∨
  ∃ name, m !! name = None ∧ m' = <[name := Z.of_nat (size m) + 1]> m.

(** The identifiers of a table are those from 1 to its size, one per
    name. *)
Definition ids_wf (m : gmap pystr Z) : Prop :=
  (∀ name id, m !! name = Some id → 1 ≤ id ≤ Z.of_nat (size m))
  ∧ (∀ n1 n2 id, m !! n1 = Some id → m !! n2 = Some id → n1 = n2).

(** The requests a process serves, one [handle] after the other, each
    with its batch and its context; a request that raises leaves the
    handler running. *)
Definition serve (env : Env) (calls : list (list PyVal * Context)) (w : World)
  : World :=
  fold_left (λ w call, (handle env call.1 call.2 w).2) calls w.

(** Every number from 1 to the size of the table is the identifier of
    some name. *)
Definition ids_full (m : gmap pystr Z) : Prop :=
  ∀ i, 1 ≤ i ≤ Z.of_nat (size m) → ∃ name, m !! name = Some i.

(** ** Kinds of value *)

Definition is_dict (v : PyVal) : bool :=
  match v with VDict _ => true | _ => false end.

Definition is_bytes (v : PyVal) : bool :=
  match v with VBytes _ => true | _ => false end.

(** ** Events and intermediate responses *)

(** The intermediate responses of a streaming request for a sequence of
    events, [n] characters being already emitted: nothing for a final
    event; for any other event one response holding the text after the
    first [n] characters and the latest token, and the whole text counts as
    emitted from then on. *)
Inductive pushes (ctx : Context) : nat → list RequestOutput → list Intermediate → Prop :=
| pushes_nil n : pushes ctx n [] []
| pushes_final n e evs new :
    finished e = true →
    pushes ctx n evs new →
    pushes ctx n (e :: evs) new
| pushes_partial n e o os tok evs new :
    finished e = false →
    outputs e = o :: os →
    last (token_ids o) = Some tok →
    pushes ctx (length (text o)) evs new →
    pushes ctx n (e :: evs)
      (mkIntermediate [json_dumps (chunk (drop n (text o)) tok)]
         (request_ids ctx) (lit "Result") 200 :: new).

(** The document of an intermediate response and its [text] field. *)
Definition pushed_doc (i : Intermediate) : option PyVal :=
  match im_ret i with
  | [j] => Some (json_loads j)
  | _ => None
  end.

Definition pushed_text (i : Intermediate) : pystr :=
  match pushed_doc i with
  | Some (VDict d) =>
      match d !! lit "text" with
      | Some (VStr t) => t
      | _ => []
      end
  | _ => []
  end.

(** The [text] fields of the responses, concatenated in emission order. *)
Definition streamed_text (new : list Intermediate) : pystr :=
  concat (List.map pushed_text new).

(** An event the streaming loop can handle: final, or with a first
    completion that has a token. *)
Definition streamable (e : RequestOutput) : bool :=
  finished e ||
  match outputs e with
  | o :: _ => negb (Nat.eqb (length (token_ids o)) 0)
  | [] => false
  end.

Definition partial (e : RequestOutput) : bool := negb (finished e).

(** Each event that is not final extends the text of the one before it,
    starting from [prev]. *)
Fixpoint growing (prev : pystr) (evs : list RequestOutput) : bool :=
  match evs with
  | [] => true
  | e :: rest =>
      if finished e then growing prev rest
      else match outputs e with
           | o :: _ => bool_decide (prev `prefix_of` text o) && growing (text o) rest
           | [] => false
           end
  end.

(** The text of the last event that is not final, [prev] when there is
    none. *)
Fixpoint last_partial_text (prev : pystr) (evs : list RequestOutput) : pystr :=
  match evs with
  | [] => prev
  | e :: rest =>
      if finished e then last_partial_text prev rest
      else match outputs e with
           | o :: _ => last_partial_text (text o) rest
           | [] => last_partial_text prev rest
           end
  end.

(** The engine's full text: that of the first completion of its last
    event. *)
Definition final_text (evs : list RequestOutput) : option pystr :=
  e ← last evs; o ← head (outputs e); Some (text o).

(** ** Reading a JSON document *)

(** A step into a document, [doc["k"]] or [doc[i]], and a path of
    steps. *)
Inductive json_step : Type :=
| Field (k : string)
| Item (i : nat).

Definition json_get (st : json_step) (doc : PyVal) : option PyVal :=
  match st, doc with
  | Field k, VDict d => d !! lit k
  | Item i, VList l => l !! i
  | _, _ => None
  end.

Fixpoint json_at (path : list json_step) (doc : PyVal) : option PyVal :=
  match path with
  | [] => Some doc
  | st :: path' =>
      match json_get st doc with
      | Some doc' => json_at path' doc'
      | None => None
      end
  end.

(** ** Intermediate responses, read as the host receives them *)

(** The response [i] carries one JSON object whose fields are [text],
    holding [t], and [tokens], holding [tok], and was pushed for the
    request identifiers of [ctx] with the message ["Result"] and the
    code 200. *)
Definition is_chunk (ctx : Context) (t : pystr) (tok : Z) (i : Intermediate)
  : Prop :=
  ∃ j d,
    im_ret i = [j]
    ∧ json_loads j = VDict d
    ∧ dom d = {[lit "text"; lit "tokens"]}
    ∧ json_at [Field "text"] (json_loads j) = Some (VStr t)
    ∧ json_at [Field "tokens"] (json_loads j) = Some (VInt tok)
    ∧ im_req_ids i = request_ids ctx
    ∧ im_message i = lit "Result"
    ∧ im_code i = 200.

(** The responses of a streaming request for a sequence of events, [n]
    characters being already emitted: none for a final event; for any
    other event one response whose [text] is the text of the event's
    first completion after its first [n] characters and whose [tokens] is
    the last token identifier of that completion. *)
Inductive streamed (ctx : Context) : nat → list RequestOutput → list Intermediate → Prop :=
| streamed_nil n : streamed ctx n [] []
| streamed_final n e evs new :
    finished e = true →
    streamed ctx n evs new →
    streamed ctx n (e :: evs) new
| streamed_partial n e o os tok evs i new :
    finished e = false →
    outputs e = o :: os →
    last (token_ids o) = Some tok →
    is_chunk ctx (drop n (text o)) tok i →
    streamed ctx (length (text o)) evs new →
    streamed ctx n (e :: evs) (i :: new).

(** ** A concrete deployment

    An environment, a configuration and an engine small enough to run the
    handler on. *)
Module Example.

(** A [dict] from its items. *)
Definition dict (items : list (string * PyVal)) : PyVal :=
  VDict (list_to_map (List.map (λ '(k, v), (lit k, v)) items)).

Definition str (s : string) : PyVal := VStr (lit s).

(** An event with one completion. *)
Definition event (fin : bool) (t : string) (toks : list Z) : RequestOutput :=
  mkRequestOutput fin [mkCompletionOutput (lit t) toks].

(** The engine answers the prompt ["hi"] with three events whose last
    one is final and completes the text; the prompt ["ok"] with a
    single final event; the prompt ["none"] with no event. *)
Definition events_for (c : GenerateCall) : list RequestOutput :=
  match gc_prompt c with
  | VStr p =>
      if bool_decide (p = lit "hi") then
        [event false "He" [1]; event false "Hell" [1; 2];
         event true "Hello" [1; 2; 3]]
      else if bool_decide (p = lit "ok") then
        [event true "fine" [7]]
      else []
  | _ => []
  end.

Definition env : Env :=
  {| joinpath := λ a b, (a ++ lit "/" ++ b)%list;
     path_exists := λ p, bool_decide (p = lit "/models/llama");
     SamplingParams_defaults :=
       <[lit "temperature" := VInt 1]> (<[lit "max_tokens" := VInt 16]> ∅);
     AsyncEngineArgs_defaults := <[lit "dtype" := str "auto"]> ∅;
     from_engine_args := λ _, Ok tt;
     engine_generate := events_for;
     clock := 1700000000 |}.

Definition handler_items : attrs :=
  list_to_map
    [(lit "model_path", str "llama");
     (lit "adapters", dict [("A", str "a"); ("B", str "b"); ("E", str "")])].

Definition handler_config : PyVal := VDict handler_items.

Definition context : Context :=
  {| system_properties := dict [("model_dir", str "/models")];
     model_yaml_config := dict [("handler", handler_config)];
     request_ids := [lit "req-0"] |}.

(** The world after [initialize]. *)
Definition world : World := (initialize env context new_world).2.

(** A mapping payload from its fields, and a request item carrying a
    payload in its [data] field. *)
Definition request (fields : list (string * PyVal)) : attrs :=
  list_to_map (List.map (λ '(k, v), (lit k, v)) fields).

Definition item (payload : PyVal) : attrs := <[lit "data" := payload]> ∅.

(** A JSON text as [bytes]: the literal [s] with each apostrophe standing
    for a quotation mark. *)
Definition json_bytes (s : string) : list byte :=
  List.map (λ b, if Byte.eqb b x27 then x22 else b) (list_byte_of_string s).

(** The streaming request of the example deployment and the generation
    call it leads to. *)
Definition streaming_request : attrs :=
  request [("prompt", str "hi"); ("stream", VBool true)].

Definition streaming_call : GenerateCall :=
  mkGenerateCall (str "hi")
    (set_attr_value (SamplingParams_defaults env) streaming_request)
    (lit "req-0") None.

(** A deployment whose configuration names the model itself and whose
    host gives no [model_dir] system property. *)
Definition context_without_model_dir : Context :=
  {| system_properties := dict [];
     model_yaml_config :=
       dict [("handler",
              dict [("vllm_engine_config", dict [("model", str "X")]);
                    ("adapters", dict [("A", str "a")])])];
     request_ids := [lit "req-0"] |}.

(** An engine whose second event has no completion. *)
Definition env_broken : Env :=
  {| joinpath := joinpath env;
     path_exists := path_exists env;
     SamplingParams_defaults := SamplingParams_defaults env;
     AsyncEngineArgs_defaults := AsyncEngineArgs_defaults env;
     from_engine_args := from_engine_args env;
     engine_generate := λ _, [event false "He" [1]; mkRequestOutput false [];
                              event true "Hello" [1; 2; 3]];
     clock := clock env |}.

(** An engine whose last event has no completion. *)
Definition env_empty_final : Env :=
  {| joinpath := joinpath env;
     path_exists := path_exists env;
     SamplingParams_defaults := SamplingParams_defaults env;
     AsyncEngineArgs_defaults := AsyncEngineArgs_defaults env;
     from_engine_args := from_engine_args env;
     engine_generate := λ _, [event false "He" [1]; mkRequestOutput true []];
     clock := clock env |}.

(** A deployment whose engine cannot be constructed. *)
Definition env_no_engine : Env :=
  {| joinpath := joinpath env;
     path_exists := path_exists env;
     SamplingParams_defaults := SamplingParams_defaults env;
     AsyncEngineArgs_defaults := AsyncEngineArgs_defaults env;
     from_engine_args := λ _, Raise EngineError;
     engine_generate := engine_generate env;
     clock := clock env |}.

End Example.

(** * Properties *)

(** Simplification that stops at the method [f]. *)
Ltac simpl_above f := cbn -[f get_lora_request set_attr_value].

(** ** The permissive merge *)

(** What [_set_attr_value] leaves in each attribute. *)
Lemma set_attr_value_lookup (obj config : attrs) (k : pystr) :
  set_attr_value obj config !! k =
    match obj !! k with
    | Some old => Some (default old (config !! k))
    | None => None
    end.
Proof.
  unfold set_attr_value. revert k.
  apply (map_fold_weak_ind
           (λ (r : attrs) (m : gmap pystr PyVal), ∀ k,
              r !! k = match obj !! k with
                       | Some old => Some (default old (m !! k))
                       | None => None
                       end)).
  - intros k. rewrite lookup_empty. by destruct (obj !! k).
  - intros i x m r Hi IH k.
    destruct (decide (i = k)) as [<-|Hne].
    + specialize (IH i). rewrite Hi in IH. rewrite lookup_insert_eq.
      destruct (obj !! i) as [old|]; rewrite IH; simpl.
      * by rewrite lookup_insert_eq.
      * done.
    + rewrite (lookup_insert_ne m) by done. rewrite <- IH.
      destruct (r !! i); [by rewrite lookup_insert_ne | done].
Qed.

Lemma set_attr_value_dom (obj config : attrs) :
  dom (set_attr_value obj config) = dom obj.
Proof.
  apply set_eq. intros k. rewrite !elem_of_dom, set_attr_value_lookup.
  destruct (obj !! k); split; intros [? ?]; eauto; done.
Qed.

(** C7.  The merge writes exactly the keys of the override mapping that
    name an attribute of the target, leaves every other attribute as it
    was, creates no attribute and raises nothing; sampling parameters
    and engine arguments are both built by it; and merging
    [{"model": X, "unknown_field": 1}] into the engine arguments, which
    have no attribute [unknown_field], gives the defaults with
    [model = X]. *)
Theorem permissive_merge (env : Env) :
  (∀ (obj config : attrs) k v,
      config !! k = Some v → is_Some (obj !! k) →
      set_attr_value obj config !! k = Some v)
  ∧ (∀ (obj config : attrs) k,
      config !! k = None → set_attr_value obj config !! k = obj !! k)
  ∧ (∀ (obj config : attrs) k,
      obj !! k = None → set_attr_value obj config !! k = None)
  ∧ (∀ req,
      get_sampling_params env (VDict req)
      = Ok (set_attr_value (SamplingParams_defaults env) req))
  ∧ (∀ slf handler_config params model,
      py_get handler_config (lit "vllm_engine_config") (VDict ∅)
      = Ok (VDict params) →
      resolve_model env slf handler_config = Ok model →
      get_vllm_engine_config env slf handler_config
      = Ok (set_attr_value (AsyncEngineArgs env model) params))
  ∧ (∀ slf X,
      X ≠ [] →
      AsyncEngineArgs_defaults env !! lit "unknown_field" = None →
      get_vllm_engine_config env slf (merge_example X)
      = Ok (<[lit "model" := VStr X]> (AsyncEngineArgs_defaults env))).
Proof.
  refine (conj _ (conj _ (conj _ (conj _ (conj _ _))))).
  - intros obj config k v Hc [old Ho].
    by rewrite set_attr_value_lookup, Ho, Hc.
  - intros obj config k Hc. rewrite set_attr_value_lookup, Hc.
    by destruct (obj !! k).
  - intros obj config k Ho. by rewrite set_attr_value_lookup, Ho.
  - intros req. reflexivity.
  - intros slf hc params model Hp Hm.
    unfold get_vllm_engine_config. rewrite Hm. simpl. by rewrite Hp.
  - intros slf X HX Hunk.
    assert (Hm : resolve_model env slf (merge_example X) = Ok (VStr X)).
    { destruct X as [|c X]; [done|]. reflexivity. }
    unfold get_vllm_engine_config. rewrite Hm. simpl.
    rewrite lookup_insert_eq. simpl. f_equal.
    apply map_eq. intros k. rewrite set_attr_value_lookup.
    unfold AsyncEngineArgs.
    destruct (decide (k = lit "model")) as [->|Hk].
    + by rewrite !lookup_insert_eq.
    + rewrite !(lookup_insert_ne _ (lit "model")) by done.
      destruct (decide (k = lit "unknown_field")) as [->|Hu].
      * by rewrite Hunk.
      * rewrite lookup_insert_ne, lookup_empty by done.
        by destruct (AsyncEngineArgs_defaults env !! k).
Qed.

Lemma permissive_merge_witness :
  get_vllm_engine_config Example.env new_handler (merge_example (lit "X"))
  = Ok (<[lit "model" := VStr (lit "X")]>
          (AsyncEngineArgs_defaults Example.env)).
Proof.
  apply (permissive_merge Example.env); [discriminate | reflexivity].
Defined.

(** ** Model location *)

(** The model the engine arguments are constructed with: a non-empty
    [model] of the engine section as it is; otherwise [model_path]
    joined to the model directory when that path exists and the raw
    [model_path] when it does not; an assertion failure, also of
    [initialize], when both are empty.  [_get_vllm_engine_config] then
    merges the engine section into the arguments built from it. *)
Lemma resolve_model_cases (env : Env) (slf : VLLMHandler)
    (hc params : attrs) (model model_path : PyVal) (root : pystr)
    (Hroot : model_dir slf = VStr root)
    (Hparams : default (VDict ∅) (hc !! lit "vllm_engine_config") = VDict params)
    (Hmodel : default (VDict ∅) (params !! lit "model") = model)
    (Hpath : default (VDict ∅) (hc !! lit "model_path") = model_path) :
  let resolved := resolve_model env slf (VDict hc) in
  (∀ n, py_len model = Ok (S n) → resolved = Ok model)
  ∧ (∀ rel, py_len model = Ok 0%nat → model_path = VStr rel → rel ≠ [] →
       resolved = Ok (if path_exists env (joinpath env root rel)
                      then VPath (joinpath env root rel)
                      else VStr rel))
  ∧ (py_len model = Ok 0%nat → py_len model_path = Ok 0%nat →
       resolved = Raise AssertionError)
  ∧ (∀ m, resolved = Ok m →
       get_vllm_engine_config env slf (VDict hc)
       = Ok (set_attr_value (AsyncEngineArgs env m) params))
  ∧ (∀ ctx w (yaml : attrs) dir,
       py_get (system_properties ctx) (lit "model_dir") VNone = Ok dir →
       model_yaml_config ctx = VDict yaml →
       default (VDict ∅) (yaml !! lit "handler") = VDict hc →
       py_len model = Ok 0%nat → py_len model_path = Ok 0%nat →
       (initialize env ctx w).1 = Raise AssertionError).
Proof.
  assert (Hstart : ∀ s, resolve_model env s (VDict hc)
            = n ← py_len model;
              if Nat.eqb n 0 then
                m ← py_len model_path;
                py_assert (Nat.ltb 0 m);;
                p ← py_joinpath env (model_dir s) model_path;
                if negb (path_exists env p) then mret model_path
                else mret (VPath p)
              else mret model).
  { intros s. unfold resolve_model. simpl. rewrite Hparams. simpl.
    by rewrite Hmodel, Hpath. }
  simpl. refine (conj _ (conj _ (conj _ (conj _ _)))).
  - intros n Hn. rewrite Hstart, Hn. reflexivity.
  - intros rel Hm -> Hrel. rewrite Hstart, Hm. simpl.
    destruct rel as [|c rel]; [done|]. simpl. rewrite Hroot. simpl.
    by destruct (path_exists env _).
  - intros Hm Hp. rewrite Hstart, Hm. simpl. by rewrite Hp.
  - intros m Hm. unfold get_vllm_engine_config. rewrite Hm. simpl.
    by rewrite Hparams.
  - intros ctx w yaml dir Hdir Hyaml Hhandler Hm Hp.
    unfold initialize. simpl. unfold mbind, M_bind, get_self, lift. simpl.
    rewrite Hdir, Hyaml. simpl. rewrite Hhandler.
    unfold get_vllm_engine_config. rewrite Hstart, Hm. simpl. by rewrite Hp.
Qed.

Example resolve_model_of_the_example :
  resolve_model Example.env (self Example.world) Example.handler_config
  = Ok (VPath (lit "/models/llama")).
Proof.
  refine (proj1 (proj2 (resolve_model_cases Example.env
            (self Example.world) Example.handler_items ∅
            (VDict ∅) (Example.str "llama") (lit "/models")
            _ _ _ _)) (lit "llama") _ _ _);
    first [reflexivity | discriminate].
Qed.

(** The merge that follows the resolution writes [model] again when the
    engine section has that key, whatever its value: with an empty
    [model] there, the arguments end with the empty value and not with
    the resolved path. *)
Lemma engine_config_model (env : Env) (slf : VLLMHandler)
    (handler_config : PyVal) (cfg : attrs) :
  get_vllm_engine_config env slf handler_config = Ok cfg →
  ∃ params resolved,
    py_get handler_config (lit "vllm_engine_config") (VDict ∅) = Ok (VDict params)
    ∧ resolve_model env slf handler_config = Ok resolved
    ∧ cfg !! lit "model" = Some (default resolved (params !! lit "model")).
Proof.
  unfold get_vllm_engine_config. intros H.
  destruct (resolve_model env slf handler_config) as [resolved|e] eqn:Hr;
    [|done].
  simpl in H.
  destruct (py_get handler_config _ _) as [p|e] eqn:Hp; [|done].
  simpl in H. destruct p; try done. simpl in H.
  injection H as <-. eexists _, _. split; [done|]. split; [done|].
  rewrite set_attr_value_lookup. unfold AsyncEngineArgs.
  by rewrite lookup_insert_eq.
Qed.

(** C6, on the arguments [_get_vllm_engine_config] returns.  A non-empty
    [model] of the engine section is the returned model; with no [model]
    entry there, the returned model is [model_path] joined to the model
    directory when that path exists and the raw [model_path] when it does
    not; with neither a non-empty model nor a non-empty [model_path] the
    assertion fails.  Where the code departs from the claim: a [model]
    entry that is present and empty, beside a [model_path], is itself the
    returned model, the merge having written it over the resolved
    path. *)
Theorem returned_model_location (env : Env) (slf : VLLMHandler)
    (hc params : attrs) (model_path : PyVal) (root : pystr)
    (Hroot : model_dir slf = VStr root)
    (Hparams : default (VDict ∅) (hc !! lit "vllm_engine_config") = VDict params)
    (Hpath : default (VDict ∅) (hc !! lit "model_path") = model_path) :
  let returned := get_vllm_engine_config env slf (VDict hc) in
  (∀ m n, params !! lit "model" = Some m → py_len m = Ok (S n) →
     ∃ cfg, returned = Ok cfg ∧ cfg !! lit "model" = Some m)
  ∧ (∀ rel, params !! lit "model" = None → model_path = VStr rel → rel ≠ [] →
     ∃ cfg, returned = Ok cfg
            ∧ cfg !! lit "model"
              = Some (if path_exists env (joinpath env root rel)
                      then VPath (joinpath env root rel)
                      else VStr rel))
  ∧ (py_len (default (VDict ∅) (params !! lit "model")) = Ok 0%nat →
     py_len model_path = Ok 0%nat →
     returned = Raise AssertionError)
  ∧ (∀ m rel, params !! lit "model" = Some m → py_len m = Ok 0%nat →
     model_path = VStr rel → rel ≠ [] →
     resolve_model env slf (VDict hc)
     = Ok (if path_exists env (joinpath env root rel)
           then VPath (joinpath env root rel)
           else VStr rel)
     ∧ ∃ cfg, returned = Ok cfg ∧ cfg !! lit "model" = Some m).
Proof.
  intros returned.
  destruct (resolve_model_cases env slf hc params
              (default (VDict ∅) (params !! lit "model")) model_path root
              Hroot Hparams eq_refl Hpath)
    as (Hfull & Hrel & Hnone & Hret & _).
  assert (Hmodel : ∀ resolved,
    resolve_model env slf (VDict hc) = Ok resolved →
    ∃ cfg, returned = Ok cfg
           ∧ cfg !! lit "model" = Some (default resolved (params !! lit "model"))).
  { intros resolved Hres. eexists. split; [by apply Hret|].
    rewrite set_attr_value_lookup. unfold AsyncEngineArgs.
    by rewrite lookup_insert_eq. }
  refine (conj _ (conj _ (conj _ _))).
  - intros m n Hm Hlen. rewrite Hm in Hfull. simpl in Hfull.
    destruct (Hmodel m (Hfull n Hlen)) as (cfg & Hcfg & Hlook).
    exists cfg. by rewrite Hm in Hlook.
  - intros rel Hm Hp Hne. rewrite Hm in Hrel. simpl in Hrel.
    destruct (Hmodel _ (Hrel rel eq_refl Hp Hne)) as (cfg & Hcfg & Hlook).
    exists cfg. by rewrite Hm in Hlook.
  - intros Hlen Hplen. subst returned. unfold get_vllm_engine_config.
    by rewrite (Hnone Hlen Hplen).
  - intros m rel Hm Hlen Hp Hne. rewrite Hm in Hrel. simpl in Hrel.
    split; [by apply Hrel|].
    destruct (Hmodel _ (Hrel rel Hlen Hp Hne)) as (cfg & Hcfg & Hlook).
    exists cfg. by rewrite Hm in Hlook.
Qed.

Lemma returned_model_location_witness :
  let hc : attrs :=
    <[lit "vllm_engine_config" := Example.dict [("model", Example.str "")]]>
      (<[lit "model_path" := Example.str "llama"]> ∅) in
  resolve_model Example.env (self Example.world) (VDict hc)
  = Ok (VPath (lit "/models/llama"))
  ∧ ∃ cfg, get_vllm_engine_config Example.env (self Example.world) (VDict hc)
           = Ok cfg
           ∧ cfg !! lit "model" = Some (Example.str "").
Proof.
  intros hc.
  exact (proj2 (proj2 (proj2
           (returned_model_location Example.env (self Example.world) hc
              (Example.request [("model", Example.str "")])
              (Example.str "llama") (lit "/models")
              ltac:(vm_compute; reflexivity) ltac:(vm_compute; reflexivity)
              ltac:(vm_compute; reflexivity))))
           (Example.str "") (lit "llama")
           ltac:(vm_compute; reflexivity) ltac:(vm_compute; reflexivity)
           ltac:(reflexivity) ltac:(by vm_compute)).
Defined.

(** ** Adapter identifiers *)

Lemma ids_wf_empty : ids_wf ∅.
Proof. split; intros *; by rewrite lookup_empty. Qed.

Lemma table_step_wf (m m' : gmap pystr Z) :
  table_step m m' → ids_wf m → ids_wf m' ∧ m ⊆ m'.
Proof.
  intros [->|(name & Hnone & ->)] [Hrange Hinj]; [by split|].
  split; [split|].
  - intros n id. rewrite map_size_insert_None by done.
    destruct (decide (name = n)) as [->|Hne].
    + rewrite lookup_insert_eq. intros [= <-]. lia.
    + rewrite lookup_insert_ne by done. intros H%Hrange. lia.
  - intros n1 n2 id. rewrite !lookup_insert.
    repeat case_decide; subst.
    + done.
    + intros [= <-] Hr%Hrange. lia.
    + intros Hr%Hrange [= <-]. lia.
    + apply Hinj.
  - by apply insert_subseteq.
Qed.

(** What [lora_ids.setdefault] does. *)
Lemma lora_ids_setdefault_effect (name : pystr) (w : World) :
  ∃ id w',
    lora_ids_setdefault (VStr name) w = (Ok id, w')
    ∧ sent w' = sent w ∧ generated w' = generated w
    ∧ adapters (self w') = adapters (self w)
    ∧ model_dir (self w') = model_dir (self w)
    ∧ table_step (lora_ids (self w)) (lora_ids (self w'))
    ∧ lora_ids (self w') !! name = Some id
    ∧ (lora_ids (self w) !! name = None →
       id = Z.of_nat (size (lora_ids (self w))) + 1).
Proof.
  unfold lora_ids_setdefault, mbind, M_bind, get_self. simpl.
  destruct (lora_ids (self w) !! name) as [id|] eqn:Hl.
  - exists id, w. unfold mret, M_ret. repeat split; try done. by left.
  - eexists _, _. unfold put_self, mret, M_ret. simpl.
    repeat split; try done.
    + right. by exists name.
    + apply lookup_insert_eq.
Qed.

(** What one resolution does to the world, whatever the request. *)
Lemma get_lora_request_effect (env : Env) (req_data : PyVal) (w : World) :
  let r := (get_lora_request env req_data w).1 in
  let w' := (get_lora_request env req_data w).2 in
  sent w' = sent w ∧ generated w' = generated w
  ∧ adapters (self w') = adapters (self w)
  ∧ model_dir (self w') = model_dir (self w)
  ∧ table_step (lora_ids (self w)) (lora_ids (self w'))
  ∧ (∀ l, r = Ok (Some l) →
       ∃ name, lora_name l = VStr name
               ∧ lora_ids (self w') !! name = Some (lora_int_id l)
               ∧ (lora_ids (self w) !! name = None →
                  lora_int_id l = Z.of_nat (size (lora_ids (self w))) + 1)).
Proof.
  assert (Hsame : ∀ r0, let r := (r0, w).1 in let w' := (r0, w).2 in
    (∀ l : LoRARequest, r0 ≠ Ok (Some l)) →
    sent w' = sent w ∧ generated w' = generated w
    ∧ adapters (self w') = adapters (self w)
    ∧ model_dir (self w') = model_dir (self w)
    ∧ table_step (lora_ids (self w)) (lora_ids (self w'))
    ∧ (∀ l, r = Ok (Some l) →
         ∃ name, lora_name l = VStr name
                 ∧ lora_ids (self w') !! name = Some (lora_int_id l)
                 ∧ (lora_ids (self w) !! name = None →
                    lora_int_id l = Z.of_nat (size (lora_ids (self w))) + 1))).
  { intros r0 r w' Hr. subst r w'. simpl. repeat split; try done.
    - by left.
    - intros l ->. by destruct (Hr l). }
  unfold get_lora_request, mbind, M_bind, lift, get_self. simpl.
  destruct (py_get req_data _ _) as [adapter_name|e]; [|by apply Hsame].
  destruct (py_len adapter_name) as [n|e]; [|by apply Hsame].
  destruct (Nat.ltb 0 n); [|by apply Hsame].
  destruct (py_get_key _ adapter_name _) as [adapter_path|e] eqn:Hget;
    [|by apply Hsame].
  destruct (py_len adapter_path) as [m|e]; [|by apply Hsame].
  simpl. destruct (Nat.ltb 0 m); simpl; [|by apply Hsame].
  destruct adapter_name as [| | |name| | | |]; try by apply Hsame.
  destruct (lora_ids_setdefault_effect name w)
    as (id & w' & -> & Hs & Hg & Ha & Hd & Hstep & Hid & Hnew).
  destruct (py_joinpath env _ adapter_path) as [p|e]; simpl.
  - repeat split; try done. intros l [= <-]. by exists name.
  - repeat split; done.
Qed.

(** A resolution leaves the engine and the initialized flag alone. *)
Lemma lora_ids_setdefault_config (name : PyVal) (w : World) :
  vllm_engine (self (lora_ids_setdefault name w).2) = vllm_engine (self w)
  ∧ initialized (self (lora_ids_setdefault name w).2) = initialized (self w).
Proof.
  destruct name; try done. unfold lora_ids_setdefault, mbind, M_bind, get_self.
  simpl. by destruct (lora_ids (self w) !! s).
Qed.

Lemma get_lora_request_config (env : Env) (req_data : PyVal) (w : World) :
  vllm_engine (self (get_lora_request env req_data w).2) = vllm_engine (self w)
  ∧ initialized (self (get_lora_request env req_data w).2) = initialized (self w).
Proof.
  unfold get_lora_request, mbind, M_bind, lift, get_self. simpl.
  destruct (py_get req_data _ _) as [adapter_name|e]; [|done].
  destruct (py_len adapter_name) as [n|e]; [|done].
  destruct (Nat.ltb 0 n); [|done].
  destruct (py_get_key _ adapter_name _) as [adapter_path|e]; [|done].
  destruct (py_len adapter_path) as [m|e]; [|done].
  simpl. destruct (Nat.ltb 0 m); simpl; [|done].
  pose proof (lora_ids_setdefault_config adapter_name w) as Hc.
  destruct (lora_ids_setdefault adapter_name w) as [[id|e] w']; [|done].
  by destruct (py_joinpath env _ adapter_path).
Qed.




(** ** Preprocessing *)

Lemma prepare_completion_request_mapping (env : Env) (req : attrs) (w : World) :
  prepare_completion_request env (VDict req) w =
    match get_lora_request env (VDict req) w with
    | (Ok lora, w') => (Ok (prepared env req lora), w')
    | (Raise e, w') => (Raise e, w')
    end.
Proof.
  unfold prepare_completion_request, mbind, M_bind, lift. simpl.
  by destruct (get_lora_request env (VDict req) w) as [[lora|e] w'].
Qed.

Lemma preprocess_mapping (env : Env) (item req : attrs) (ctx : Context)
    (w : World) :
  payload_of item = VDict req →
  preprocess env [VDict item] ctx w =
    match get_lora_request env (VDict req) w with
    | (Ok lora, w') => (Ok [prepared env req lora], w')
    | (Raise e, w') => (Raise e, w')
    end.
Proof.
  intros Hp. unfold payload_of, py_or in Hp.
  pose proof (prepare_completion_request_mapping env req w) as Hq.
  unfold preprocess, mbind, M_bind, lift.
  simpl_above prepare_completion_request.
  destruct (py_truthy (default VNone (item !! lit "data")));
    simpl_above prepare_completion_request; rewrite Hp;
    simpl_above prepare_completion_request; rewrite Hq;
    by destruct (get_lora_request env (VDict req) w) as [[lora|e] w'].
Qed.

Lemma preprocess_bytes (env : Env) (item : attrs) (bs : list byte)
    (ctx : Context) (w : World) :
  payload_of item = VBytes bs →
  preprocess env [VDict item] ctx w =
    (match py_decode_utf8 bs with
     | Ok _ => Raise AttributeError
     | Raise e => Raise e
     end, w).
Proof.
  intros Hp. unfold payload_of, py_or in Hp.
  unfold preprocess, mbind, M_bind, lift. simpl.
  destruct (py_truthy (default VNone (item !! lit "data")));
    simpl; rewrite Hp; simpl; by destruct (py_decode_utf8 bs).
Qed.

(** ** The event loop *)

Lemma last_token (toks : list Z) :
  Nat.eqb (length toks) 0 = false → ∃ tok, last toks = Some tok.
Proof.
  destruct toks as [|t toks]; [done|]. intros _.
  destruct (last (t :: toks)) eqn:H; [by eexists|].
  by apply last_None in H.
Qed.

(** The loop of a request that does not stream pushes nothing and keeps
    the last event. *)
Lemma inference_loop_silent (ctx : Context) (stream : PyVal)
    (evs : list RequestOutput) (loc : Locals) (w : World) :
  py_truthy stream = false →
  inference_loop ctx stream evs loc w =
    (Ok {| text_len := text_len loc;
           output := from_option Some (output loc) (last evs);
           result := result loc |}, w).
Proof.
  intros Hs. revert loc. induction evs as [|e evs IH]; intros loc.
  - by destruct loc.
  - simpl. unfold mbind, M_bind, inference_step.
    rewrite Hs, andb_false_r. simpl. rewrite IH. simpl.
    rewrite last_cons. by destruct (last evs).
Qed.

(** The loop of a streaming request over events it can handle. *)
Lemma inference_loop_streaming (ctx : Context) (stream : PyVal)
    (evs : list RequestOutput) (loc : Locals) (w : World) :
  py_truthy stream = true →
  forallb streamable evs = true →
  ∃ new loc',
    inference_loop ctx stream evs loc w =
      (Ok loc', {| self := self w; sent := sent w ++ new;
                   generated := generated w |})
    ∧ pushes ctx (text_len loc) evs new
    ∧ result loc' = match last new with
                    | Some i => pushed_doc i
                    | None => result loc
                    end.
Proof.
  intros Hs. revert loc w.
  induction evs as [|e evs IH]; intros loc w Hwf.
  - exists [], loc. rewrite app_nil_r. destruct w. repeat split. constructor.
  - simpl in Hwf. apply andb_prop in Hwf as [He Hwf].
    simpl. unfold mbind, M_bind, inference_step. rewrite Hs, andb_true_r.
    unfold streamable in He. destruct (finished e) eqn:Hfin; simpl.
    + destruct (IH {| text_len := text_len loc; output := Some e;
                      result := result loc |} w Hwf)
        as (new & loc' & -> & Hp & Hr).
      exists new, loc'. repeat split; [|done]. by constructor.
    + destruct (outputs e) as [|o os] eqn:Ho; [done|]. simpl in He.
      apply negb_true_iff, last_token in He as [tok Htok].
      unfold mbind, M_bind, lift, py_last. simpl. rewrite Htok. simpl.
      unfold push_sent. simpl.
      set (i := mkIntermediate _ _ _ _).
      set (loc1 := mkLocals _ _ _).
      set (w1 := mkWorld _ _ _).
      destruct (IH loc1 w1 Hwf) as (new & loc' & -> & Hp & Hr).
      exists (i :: new), loc'. subst w1. simpl.
      rewrite <- app_assoc. repeat split.
      * by econstructor.
      * rewrite Hr, last_cons. by destruct (last new).
Qed.

Lemma pushes_length (ctx : Context) n evs new :
  pushes ctx n evs new → length new = length (List.filter partial evs).
Proof.
  induction 1 as [|n e evs new Hfin _ IH|n e o os tok evs new Hfin _ _ _ IH];
    simpl.
  - done.
  - assert (partial e = false) as -> by (unfold partial; by rewrite Hfin).
    done.
  - assert (partial e = true) as -> by (unfold partial; by rewrite Hfin).
    simpl. by f_equal.
Qed.

Lemma pushed_text_chunk (t : pystr) (tok : Z) ids msg code :
  pushed_text (mkIntermediate [json_dumps (chunk t tok)] ids msg code) = t.
Proof. unfold pushed_text, chunk. simpl. by rewrite lookup_insert_eq. Qed.

Lemma pushes_text (ctx : Context) (prev : pystr) evs new :
  growing prev evs = true →
  pushes ctx (length prev) evs new →
  (prev ++ streamed_text new)%list = last_partial_text prev evs.
Proof.
  intros Hg Hp. remember (length prev) as n eqn:Hn.
  revert prev Hn Hg.
  induction Hp as [|n e evs new Hfin _ IH|n e o os tok evs new Hfin Ho _ _ IH];
    intros prev Hn Hg; simpl in *.
  - apply app_nil_r.
  - rewrite Hfin in *. by apply IH.
  - rewrite Hfin, Ho in *. apply andb_prop in Hg as [Hpre Hg].
    apply bool_decide_eq_true in Hpre as [k Hk].
    unfold streamed_text. simpl. rewrite pushed_text_chunk.
    rewrite <- (IH (text o) eq_refl Hg). unfold streamed_text.
    rewrite Hk. subst n. by rewrite drop_app_length, <- app_assoc.
Qed.

Lemma partial_filter_nil (evs : list RequestOutput) :
  existsb partial evs = false → List.filter partial evs = [].
Proof.
  induction evs as [|e evs IH]; [done|].
  simpl. intros [-> Hrest]%orb_false_elim. auto.
Qed.

(** The last response pushed is that of the last event that is not
    final. *)
Lemma pushes_last (ctx : Context) n evs new :
  pushes ctx n evs new →
  existsb partial evs = true →
  ∃ older t tok e o os,
    new = older ++ [mkIntermediate [json_dumps (chunk t tok)]
                      (request_ids ctx) (lit "Result") 200]
    ∧ last (List.filter partial evs) = Some e
    ∧ outputs e = o :: os
    ∧ last (token_ids o) = Some tok.
Proof.
  induction 1 as [|n e evs new Hfin _ IH|n e o os tok evs new Hfin Ho Htok Hp IH];
    simpl; intros Hex.
  - done.
  - assert (partial e = false) as Hpe by (unfold partial; by rewrite Hfin).
    rewrite Hpe in *. by apply IH.
  - assert (partial e = true) as Hpe by (unfold partial; by rewrite Hfin).
    rewrite Hpe. destruct (existsb partial evs) eqn:Hrest.
    + destruct (IH eq_refl) as (older & t & tok' & e' & o' & os' & -> & Hl & Ho' & Ht').
      exists (mkIntermediate [json_dumps (chunk (drop n (text o)) tok)]
                (request_ids ctx) (lit "Result") 200 :: older), t, tok', e', o', os'.
      split; [done|]. split; [|done]. by rewrite last_cons, Hl.
    + assert (new = []) as ->.
      { apply pushes_length in Hp. apply nil_length_inv.
        by rewrite Hp, partial_filter_nil. }
      exists [], (drop n (text o)), tok, e, o, os.
      split; [done|]. split; [|done]. by rewrite partial_filter_nil.
Qed.

Lemma chunk_is_chunk (ctx : Context) (t : pystr) (tok : Z) :
  is_chunk ctx t tok
    (mkIntermediate [json_dumps (chunk t tok)] (request_ids ctx) (lit "Result") 200).
Proof.
  assert (Hne : lit "text" ≠ lit "tokens") by (by vm_compute).
  eexists _, _. split; [reflexivity|]. split; [reflexivity|].
  split; [|split; [|split]]; [| | |done].
  - rewrite !dom_insert_L, dom_empty_L. set_solver.
  - simpl. by rewrite lookup_insert_eq.
  - simpl. by rewrite lookup_insert_ne, lookup_insert_eq.
Qed.

Lemma pushes_streamed (ctx : Context) n evs new :
  pushes ctx n evs new → streamed ctx n evs new.
Proof.
  induction 1 as [|n e evs new Hfin _ IH|n e o os tok evs new Hfin Ho Htok _ IH].
  - constructor.
  - by apply streamed_final.
  - eapply streamed_partial; [done..| |done]. apply chunk_is_chunk.
Qed.

(** [inference], with an engine, for a request that does not stream. *)
Lemma inference_not_streaming (env : Env) prompt stream params lora
    (ctx : Context) rid rest (w : World) :
  vllm_engine (self w) ≠ None →
  request_ids ctx = rid :: rest →
  py_truthy stream = false →
  let call := mkGenerateCall prompt params rid lora in
  inference env [(prompt, stream, params, lora)] ctx w =
    (match last (engine_generate env call) with
     | Some e =>
         match outputs e with
         | o :: _ =>
             Ok [json_dumps
                   (CompletionResponse rid (clock env) (lit "model_name")
                      [CompletionResponseChoice 0 (text o) VNone]
                      (UsageInfo 0 0 0))]
         | [] => Raise IndexError
         end
     | None => Raise (UnboundLocalError "output")
     end,
     {| self := self w; sent := sent w; generated := generated w ++ [call] |}).
Proof.
  intros Heng Hrid Hs call.
  unfold inference, mbind, M_bind, lift, get_self, engine_generate_of. simpl.
  destruct (vllm_engine (self w)); [|done]. simpl.
  rewrite Hrid. simpl. fold call. rewrite inference_loop_silent by done.
  rewrite Hs. simpl.
  destruct (last (engine_generate env call)) as [e|]; [|done]. simpl.
  by destruct (outputs e).
Qed.

(** [inference], with an engine, for a streaming request over events it
    can handle. *)
Lemma inference_streaming (env : Env) prompt stream params lora
    (ctx : Context) rid rest (w : World) :
  vllm_engine (self w) ≠ None →
  request_ids ctx = rid :: rest →
  py_truthy stream = true →
  let call := mkGenerateCall prompt params rid lora in
  forallb streamable (engine_generate env call) = true →
  ∃ new,
    pushes ctx 0 (engine_generate env call) new
    ∧ inference env [(prompt, stream, params, lora)] ctx w =
        (match last new with
         | Some i =>
             match pushed_doc i with
             | Some res => Ok [json_dumps res]
             | None => Raise (UnboundLocalError "result")
             end
         | None => Raise (UnboundLocalError "result")
         end,
         {| self := self w; sent := sent w ++ new;
            generated := generated w ++ [call] |}).
Proof.
  intros Heng Hrid Hs call Hwf.
  unfold inference, mbind, M_bind, lift, get_self, engine_generate_of. simpl.
  destruct (vllm_engine (self w)); [|done]. simpl.
  rewrite Hrid. simpl. fold call.
  set (loc0 := mkLocals _ _ _).
  destruct (inference_loop_streaming ctx stream _ loc0
              {| self := self w; sent := sent w;
                 generated := generated w ++ [call] |} Hs Hwf)
    as (new & loc' & Hloop & Hp & Hr).
  exists new. split; [done|]. unfold push_generated. simpl.
  rewrite Hloop, Hs. simpl. rewrite Hr.
  destruct (last new) as [i|]; [|done]. by destruct (pushed_doc i).
Qed.

(** [handle] on a batch of one item whose payload is a mapping. *)
Lemma handle_mapping (env : Env) (item req : attrs) (ctx : Context) (w : World) :
  payload_of item = VDict req →
  handle env [VDict item] ctx w =
    match get_lora_request env (VDict req) w with
    | (Ok lora, w') => inference env [prepared env req lora] ctx w'
    | (Raise e, w') => (Raise e, w')
    end.
Proof.
  intros Hp. unfold handle, mbind, M_bind.
  rewrite (preprocess_mapping env item req ctx w Hp).
  destruct (get_lora_request env (VDict req) w) as [[lora|e] w']; [|done].
  unfold postprocess, mret, M_ret.
  by destruct (inference env [prepared env req lora] ctx w') as [[out|e] w''].
Qed.

(** The loop makes no generation call and leaves the handler as it is. *)
Lemma inference_loop_frame (ctx : Context) (stream : PyVal)
    (evs : list RequestOutput) (loc : Locals) (w : World) :
  generated (inference_loop ctx stream evs loc w).2 = generated w
  ∧ self (inference_loop ctx stream evs loc w).2 = self w.
Proof.
  revert loc w. induction evs as [|e evs IH]; intros loc w; [done|].
  simpl. unfold mbind, M_bind.
  destruct (inference_step ctx stream loc e w) as [[loc'|err] w'] eqn:Hstep.
  - destruct (IH loc' w') as [-> ->].
    unfold inference_step, mbind, M_bind, lift, push_sent in Hstep.
    destruct (negb (finished e) && py_truthy stream)%bool; [|by inversion Hstep].
    destruct (py_first (outputs e)) as [o|]; [|done]. simpl in Hstep.
    destruct (py_last (token_ids o)); [|done]. by inversion Hstep.
  - unfold inference_step, mbind, M_bind, lift, push_sent in Hstep.
    destruct (negb (finished e) && py_truthy stream)%bool; [|by inversion Hstep].
    destruct (py_first (outputs e)) as [o|]; [|by inversion Hstep].
    simpl in Hstep.
    destruct (py_last (token_ids o)); by inversion Hstep.
Qed.

(** With an engine, [inference] makes exactly one generation call, with
    the prepared arguments and the first request identifier. *)
Lemma inference_generated (env : Env) prompt stream params lora
    (ctx : Context) rid rest (w : World) :
  vllm_engine (self w) ≠ None →
  request_ids ctx = rid :: rest →
  generated (inference env [(prompt, stream, params, lora)] ctx w).2
  = generated w ++ [mkGenerateCall prompt params rid lora].
Proof.
  intros Heng Hrid.
  unfold inference, mbind, M_bind, lift, get_self, engine_generate_of. simpl.
  destruct (vllm_engine (self w)); [|done]. simpl.
  rewrite Hrid. simpl.
  set (call := mkGenerateCall _ _ _ _). set (loc0 := mkLocals _ _ _).
  set (w1 := mkWorld _ _ _).
  pose proof (inference_loop_frame ctx stream (engine_generate env call) loc0 w1)
    as [Hg _].
  destruct (inference_loop ctx stream (engine_generate env call) loc0 w1)
    as [[loc|err] w2]; simpl in *; [|done].
  destruct (negb (py_truthy stream)); simpl.
  - destruct (py_local "output" (output loc)) as [e|]; [|done]. simpl.
    by destruct (py_first (outputs e)).
  - by destruct (py_local "result" (result loc)).
Qed.

(** ** The claims about requests *)

(** C1.  On a handler that has its engine, for a batch of one item whose
    payload is a mapping with a false [stream] and whose adapter
    resolves, when the engine's last event has a completion: [handle]
    returns one item, a document whose first
    choice has the text of that completion, index 0 and null [logprobs],
    whose [id] is the request identifier, whose [model] is
    ["model_name"], and whose usage counts are all 0. *)
Theorem non_streaming_response (env : Env) (item req : attrs) (ctx : Context)
    (w w' : World) (lora : option LoRARequest) (rid : pystr) (rest : list pystr)
    (final : RequestOutput) (o : CompletionOutput) (os : list CompletionOutput)
    (Hengine : vllm_engine (self w) ≠ None)
    (Hpayload : payload_of item = VDict req)
    (Hstream : py_truthy (default (VBool false) (req !! lit "stream")) = false)
    (Hlora : get_lora_request env (VDict req) w = (Ok lora, w'))
    (Hrid : request_ids ctx = rid :: rest)
    (Hfinal : last (engine_generate env
                      (mkGenerateCall (default VNone (req !! lit "prompt"))
                         (set_attr_value (SamplingParams_defaults env) req)
                         rid lora)) = Some final)
    (Hout : outputs final = o :: os) :
  ∃ out,
    (handle env [VDict item] ctx w).1 = Ok [out]
    ∧ json_at [Field "choices"; Item 0; Field "text"] (json_loads out)
      = Some (VStr (text o))
    ∧ json_at [Field "choices"; Item 0; Field "index"] (json_loads out)
      = Some (VInt 0)
    ∧ json_at [Field "choices"; Item 0; Field "logprobs"] (json_loads out)
      = Some VNone
    ∧ json_at [Field "choices"; Item 1] (json_loads out) = None
    ∧ json_at [Field "id"] (json_loads out) = Some (VStr rid)
    ∧ json_at [Field "model"] (json_loads out) = Some (VStr (lit "model_name"))
    ∧ json_at [Field "usage"; Field "prompt_tokens"] (json_loads out)
      = Some (VInt 0)
    ∧ json_at [Field "usage"; Field "completion_tokens"] (json_loads out)
      = Some (VInt 0)
    ∧ json_at [Field "usage"; Field "total_tokens"] (json_loads out)
      = Some (VInt 0).
Proof.
  rewrite (handle_mapping env item req ctx w Hpayload), Hlora.
  pose proof (get_lora_request_config env (VDict req) w) as [Heng _].
  rewrite Hlora in Heng. simpl in Heng. rewrite <- Heng in Hengine.
  unfold prepared.
  rewrite (inference_not_streaming env _ _ _ _ ctx rid rest w' Hengine Hrid Hstream).
  simpl. rewrite Hfinal, Hout.
  eexists. split; [reflexivity|].
  repeat split; vm_compute; reflexivity.
Qed.

Lemma non_streaming_response_witness :
  ∃ out,
    (handle Example.env
       [VDict (Example.item
                 (VDict (Example.request [("prompt", Example.str "hi");
                                          ("max_tokens", VInt 5)])))]
       Example.context Example.world).1 = Ok [out]
    ∧ json_at [Field "choices"; Item 0; Field "text"] (json_loads out)
      = Some (Example.str "Hello")
    ∧ json_at [Field "id"] (json_loads out) = Some (Example.str "req-0").
Proof.
  destruct (non_streaming_response Example.env
              (Example.item
                 (VDict (Example.request [("prompt", Example.str "hi");
                                          ("max_tokens", VInt 5)])))
              (Example.request [("prompt", Example.str "hi");
                                ("max_tokens", VInt 5)])
              Example.context Example.world Example.world None
              (lit "req-0") []
              (Example.event true "Hello" [1; 2; 3])
              (mkCompletionOutput (lit "Hello") [1; 2; 3]) []
              ltac:(by vm_compute)
              ltac:(vm_compute; reflexivity) ltac:(vm_compute; reflexivity)
              ltac:(vm_compute; reflexivity) ltac:(vm_compute; reflexivity)
              ltac:(vm_compute; reflexivity) ltac:(vm_compute; reflexivity))
    as (out & Hout & Htext & _ & _ & _ & Hid & _).
  exists out. split; [exact Hout|]. split; [exact Htext | exact Hid].
Defined.

(** C4.  A batch whose size is not 1 makes [preprocess], and with it
    [handle], raise an assertion failure; the world is unchanged, so no
    generation call is made. *)
Theorem batch_size_precondition (env : Env) (requests : list PyVal)
    (ctx : Context) (w : World)
    (Hsize : length requests ≠ 1%nat) :
  preprocess env requests ctx w = (Raise AssertionError, w)
  ∧ handle env requests ctx w = (Raise AssertionError, w)
  ∧ generated (handle env requests ctx w).2 = generated w.
Proof.
  assert (Hpre : preprocess env requests ctx w = (Raise AssertionError, w)).
  { unfold preprocess, mbind, M_bind, lift.
    destruct (Nat.eqb (length requests) 1) eqn:Hlen; [|done].
    by apply Nat.eqb_eq in Hlen. }
  assert (Hh : handle env requests ctx w = (Raise AssertionError, w)).
  { unfold handle, mbind, M_bind. by rewrite Hpre. }
  by rewrite Hpre, Hh.
Qed.

Lemma batch_size_precondition_witness :
  preprocess Example.env [] Example.context Example.world
  = (Raise AssertionError, Example.world)
  ∧ handle Example.env
      [VDict (Example.item (VDict (Example.request [("prompt", Example.str "hi")])));
       VDict (Example.item (VDict (Example.request [("prompt", Example.str "ok")])))]
      Example.context Example.world
    = (Raise AssertionError, Example.world).
Proof.
  split.
  - apply (batch_size_precondition Example.env [] Example.context Example.world).
    simpl. lia.
  - apply (batch_size_precondition Example.env
             [VDict (Example.item (VDict (Example.request [("prompt", Example.str "hi")])));
              VDict (Example.item (VDict (Example.request [("prompt", Example.str "ok")])))]
             Example.context Example.world).
    simpl. lia.
Defined.

(** C5.  With the adapters table [tbl]: a request naming a non-empty
    adapter that is absent from the table, or present with an empty
    path, makes the resolution and [handle] raise an assertion failure
    and leaves the world unchanged, so no generation call is made; a
    request with no adapter name, or an empty one, resolves to no
    adapter and [handle], on a handler that has its engine, makes its
    generation call without one. *)
Theorem adapter_resolution (env : Env) (item req tbl : attrs) (ctx : Context)
    (w : World)
    (Hpayload : payload_of item = VDict req)
    (Htbl : adapters (self w) = VDict tbl) :
  (∀ name,
      req !! lit "lora_adapter" = Some (VStr name) → name ≠ [] →
      (tbl !! name = None ∨ ∃ p, tbl !! name = Some p ∧ py_len p = Ok 0%nat) →
      get_lora_request env (VDict req) w = (Raise AssertionError, w)
      ∧ handle env [VDict item] ctx w = (Raise AssertionError, w))
  ∧ (default (VStr []) (req !! lit "lora_adapter") = VStr [] →
      get_lora_request env (VDict req) w = (Ok None, w)
      ∧ ∀ rid rest,
          vllm_engine (self w) ≠ None →
          request_ids ctx = rid :: rest →
          generated (handle env [VDict item] ctx w).2
          = generated w
              ++ [mkGenerateCall (default VNone (req !! lit "prompt"))
                    (set_attr_value (SamplingParams_defaults env) req)
                    rid None]).
Proof.
  split.
  - intros name Hname Hne Hmiss.
    assert (Hres : get_lora_request env (VDict req) w = (Raise AssertionError, w)).
    { unfold get_lora_request, mbind, M_bind, lift, get_self. simpl.
      rewrite Hname. simpl. destruct name as [|c name]; [done|]. simpl.
      rewrite Htbl. simpl.
      destruct Hmiss as [->|(p & -> & Hp)]; simpl; [done|]. by rewrite Hp. }
    split; [done|].
    by rewrite (handle_mapping env item req ctx w Hpayload), Hres.
  - intros Hnone.
    assert (Hres : get_lora_request env (VDict req) w = (Ok None, w)).
    { unfold get_lora_request, mbind, M_bind, lift. simpl. by rewrite Hnone. }
    split; [done|]. intros rid rest Hengine Hrid.
    rewrite (handle_mapping env item req ctx w Hpayload), Hres.
    by apply inference_generated with (rest := rest).
Qed.

Lemma adapter_resolution_witness :
  handle Example.env
    [VDict (Example.item
              (VDict (Example.request [("prompt", Example.str "hi");
                                       ("lora_adapter", Example.str "Z")])))]
    Example.context Example.world
  = (Raise AssertionError, Example.world)
  ∧ handle Example.env
      [VDict (Example.item
                (VDict (Example.request [("prompt", Example.str "hi");
                                         ("lora_adapter", Example.str "E")])))]
      Example.context Example.world
    = (Raise AssertionError, Example.world)
  ∧ get_lora_request Example.env
      (VDict (Example.request [("prompt", Example.str "hi")])) Example.world
    = (Ok None, Example.world)
  ∧ generated
      (handle Example.env
         [VDict (Example.item (VDict (Example.request [("prompt", Example.str "hi")])))]
         Example.context Example.world).2
    = generated Example.world
        ++ [mkGenerateCall (Example.str "hi")
              (set_attr_value (SamplingParams_defaults Example.env)
                 (Example.request [("prompt", Example.str "hi")]))
              (lit "req-0") None].
Proof.
  split; [|split; [|split]].
  - refine (proj2 (proj1 (adapter_resolution Example.env _ _
              (Example.request [("A", Example.str "a"); ("B", Example.str "b");
                                ("E", Example.str "")])
              Example.context Example.world _ _) (lit "Z") _ _ _));
      first [by vm_compute | by left; vm_compute].
  - refine (proj2 (proj1 (adapter_resolution Example.env _ _
              (Example.request [("A", Example.str "a"); ("B", Example.str "b");
                                ("E", Example.str "")])
              Example.context Example.world _ _) (lit "E") _ _ _));
      first [by vm_compute | right; exists (Example.str ""); by vm_compute].
  - refine (proj1 (proj2 (adapter_resolution Example.env
              (Example.item (VDict (Example.request [("prompt", Example.str "hi")])))
              _
              (Example.request [("A", Example.str "a"); ("B", Example.str "b");
                                ("E", Example.str "")])
              Example.context Example.world _ _) _)); by vm_compute.
  - refine (proj2 (proj2 (adapter_resolution Example.env
              (Example.item (VDict (Example.request [("prompt", Example.str "hi")])))
              (Example.request [("prompt", Example.str "hi")])
              (Example.request [("A", Example.str "a"); ("B", Example.str "b");
                                ("E", Example.str "")])
              Example.context Example.world _ _) _) (lit "req-0") [] _ _);
      by vm_compute.
Defined.

(** ** Streaming *)

(** C2, as stated, fails: the engine's events for ["hi"] carry the texts
    ["He"], ["Hell"] and, in the final event, ["Hello"]; the responses
    pushed are ["He"] and ["ll"], which concatenate to ["Hell"]. *)
Lemma streamed_text_misses_final_event :
  let w' := (handle Example.env [VDict (Example.item (VDict Example.streaming_request))]
               Example.context Example.world).2 in
  final_text (engine_generate Example.env Example.streaming_call) = Some (lit "Hello")
  ∧ List.map pushed_text (sent w') = [lit "He"; lit "ll"]
  ∧ Some (streamed_text (sent w'))
    ≠ final_text (engine_generate Example.env Example.streaming_call).
Proof. by vm_compute. Qed.

(** C2, amended.  On a handler that has its engine, for a streaming
    request whose events can be handled and whose texts, the final ones
    apart, each extend the one before: [inference] pushes one response
    for each event that is not final and none for a final one, each a
    JSON object whose [text] field is the text not yet emitted and whose
    [tokens] field is the latest token identifier, sent with code 200;
    and their [text] fields, concatenated, are the text of the last event
    that is not final, hence the engine's full text exactly when the
    final event adds nothing to it. *)
Theorem streamed_text_is_last_partial (env : Env) prompt stream params lora
    (ctx : Context) rid rest (w : World)
    (Hengine : vllm_engine (self w) ≠ None)
    (Hrid : request_ids ctx = rid :: rest)
    (Hstream : py_truthy stream = true)
    (Hwf : forallb streamable
             (engine_generate env (mkGenerateCall prompt params rid lora)) = true)
    (Hgrow : growing []
               (engine_generate env (mkGenerateCall prompt params rid lora)) = true) :
  let evs := engine_generate env (mkGenerateCall prompt params rid lora) in
  ∃ new,
    sent (inference env [(prompt, stream, params, lora)] ctx w).2 = sent w ++ new
    ∧ streamed ctx 0 evs new
    ∧ length new = length (List.filter partial evs)
    ∧ streamed_text new = last_partial_text [] evs
    ∧ (final_text evs = Some (streamed_text new)
       ↔ final_text evs = Some (last_partial_text [] evs)).
Proof.
  intros evs.
  destruct (inference_streaming env prompt stream params lora ctx rid rest w
              Hengine Hrid Hstream Hwf) as (new & Hp & ->).
  exists new. simpl. split; [done|]. split; [by apply pushes_streamed|].
  split; [by eapply pushes_length|].
  by rewrite <- (pushes_text ctx [] evs new Hgrow Hp).
Qed.

Lemma streamed_text_is_last_partial_witness :
  ∃ new,
    sent (inference Example.env
            [(Example.str "hi", VBool true, gc_params Example.streaming_call, None)]
            Example.context Example.world).2
    = sent Example.world ++ new
    ∧ length new = 2%nat
    ∧ streamed_text new = lit "Hell".
Proof.
  destruct (streamed_text_is_last_partial Example.env
              (Example.str "hi") (VBool true) (gc_params Example.streaming_call) None
              Example.context (lit "req-0") [] Example.world
              ltac:(by vm_compute)
              ltac:(vm_compute; reflexivity) ltac:(vm_compute; reflexivity)
              ltac:(vm_compute; reflexivity) ltac:(vm_compute; reflexivity))
    as (new & Hsent & _ & Hlen & Htext & _).
  exists new. split; [exact Hsent|]. split; [exact Hlen | exact Htext].
Defined.

(** C9, as stated, fails: a stream that finishes at its first event has
    assembled no intermediate result, and [handle] raises the
    unbound-variable error of [result] where the claim has it return. *)
Lemma stream_finished_at_first_event :
  engine_generate Example.env
    (mkGenerateCall (Example.str "ok")
       (set_attr_value (SamplingParams_defaults Example.env)
          (Example.request [("prompt", Example.str "ok"); ("stream", VBool true)]))
       (lit "req-0") None)
  = [Example.event true "fine" [7]]
  ∧ (handle Example.env
       [VDict (Example.item
                 (VDict (Example.request [("prompt", Example.str "ok");
                                          ("stream", VBool true)])))]
       Example.context Example.world).1
    = Raise (UnboundLocalError "result").
Proof. by vm_compute. Qed.

(** C9, amended.  On a handler that has its engine, for a streaming
    request whose events can be handled and are not all final,
    [inference] returns one item: the JSON object carried by the last
    intermediate response it pushed, whose [text] field is that
    response's text and whose [tokens] field is the last token
    identifier of the last event that is not final. *)
Theorem streaming_final_response (env : Env) prompt stream params lora
    (ctx : Context) rid rest (w : World)
    (Hengine : vllm_engine (self w) ≠ None)
    (Hrid : request_ids ctx = rid :: rest)
    (Hstream : py_truthy stream = true)
    (Hwf : forallb streamable
             (engine_generate env (mkGenerateCall prompt params rid lora)) = true)
    (Hsome : existsb partial
               (engine_generate env (mkGenerateCall prompt params rid lora)) = true) :
  let evs := engine_generate env (mkGenerateCall prompt params rid lora) in
  ∃ out older i t tok e o os,
    (inference env [(prompt, stream, params, lora)] ctx w).1 = Ok [out]
    ∧ sent (inference env [(prompt, stream, params, lora)] ctx w).2
      = sent w ++ older ++ [i]
    ∧ im_ret i = [out]
    ∧ is_chunk ctx t tok i
    ∧ json_at [Field "text"] (json_loads out) = Some (VStr t)
    ∧ json_at [Field "tokens"] (json_loads out) = Some (VInt tok)
    ∧ last (List.filter partial evs) = Some e
    ∧ outputs e = o :: os
    ∧ last (token_ids o) = Some tok.
Proof.
  intros evs.
  destruct (inference_streaming env prompt stream params lora ctx rid rest w
              Hengine Hrid Hstream Hwf) as (new & Hp & ->).
  destruct (pushes_last ctx 0 _ new Hp Hsome)
    as (older & t & tok & e & o & os & -> & Hlast & Ho & Htok).
  destruct (chunk_is_chunk ctx t tok)
    as (j & d & Hret & Hd & Hdom & Htext & Htokens & Hids & Hmsg & Hcode).
  simpl in Hret. injection Hret as <-.
  eexists _, older, _, t, tok, e, o, os. simpl. rewrite last_snoc. simpl.
  split; [reflexivity|]. split; [reflexivity|]. split; [reflexivity|].
  split; [apply chunk_is_chunk|]. by repeat split.
Qed.

Lemma streaming_final_response_witness :
  ∃ out tok,
    (inference Example.env
       [(Example.str "hi", VBool true, gc_params Example.streaming_call, None)]
       Example.context Example.world).1
    = Ok [out]
    ∧ json_at [Field "tokens"] (json_loads out) = Some (VInt tok).
Proof.
  destruct (streaming_final_response Example.env
              (Example.str "hi") (VBool true) (gc_params Example.streaming_call) None
              Example.context (lit "req-0") [] Example.world
              ltac:(by vm_compute)
              ltac:(vm_compute; reflexivity) ltac:(vm_compute; reflexivity)
              ltac:(vm_compute; reflexivity) ltac:(vm_compute; reflexivity))
    as (out & older & i & t & tok & e & o & os & Hret & _ & _ & _ & _ & Htok & _).
  exists out, tok. split; [exact Hret | exact Htok].
Defined.

Example streaming_final_response_hi :
  (inference Example.env
     [(Example.str "hi", VBool true, gc_params Example.streaming_call, None)]
     Example.context Example.world).1
  = Ok [json_dumps (chunk (lit "ll") 2)].
Proof. vm_compute. reflexivity. Qed.

(** C10.  On a handler that has its engine: when the engine produces no
    event, [inference] raises the unbound-variable error of [output], or
    of [result] when streaming; when a streaming request has only final
    events, that of [result]. *)
Theorem inference_needs_events (env : Env) prompt stream params lora
    (ctx : Context) rid rest (w : World)
    (Hengine : vllm_engine (self w) ≠ None)
    (Hrid : request_ids ctx = rid :: rest) :
  let evs := engine_generate env (mkGenerateCall prompt params rid lora) in
  (evs = [] →
     (inference env [(prompt, stream, params, lora)] ctx w).1
     = Raise (UnboundLocalError (if py_truthy stream then "result" else "output")))
  ∧ (py_truthy stream = true → forallb finished evs = true →
     (inference env [(prompt, stream, params, lora)] ctx w).1
     = Raise (UnboundLocalError "result")).
Proof.
  intros evs. split.
  - intros Hnil.
    unfold inference, mbind, M_bind, lift, get_self, engine_generate_of. simpl.
    destruct (vllm_engine (self w)); [|done]. simpl.
    rewrite Hrid. simpl. fold evs. rewrite Hnil. simpl.
    by destruct (py_truthy stream).
  - intros Hstream Hfin.
    assert (Hwf : forallb streamable evs = true).
    { apply forallb_forall. intros e He.
      unfold streamable. by rewrite (proj1 (forallb_forall _ _) Hfin e He). }
    destruct (inference_streaming env prompt stream params lora ctx rid rest w
                Hengine Hrid Hstream Hwf) as (new & Hp & ->).
    apply pushes_length in Hp. fold evs in Hp.
    assert (Hnone : List.filter partial evs = []).
    { clear -Hfin. induction evs as [|e evs IH]; [done|].
      simpl in Hfin. apply andb_prop in Hfin as [He Hfin].
      simpl. unfold partial at 1. rewrite He. simpl. auto. }
    rewrite Hnone in Hp. apply nil_length_inv in Hp as ->. done.
Qed.

Lemma inference_needs_events_witness :
  (inference Example.env
     [(Example.str "none", VBool false, SamplingParams_defaults Example.env, None)]
     Example.context Example.world).1
  = Raise (UnboundLocalError "output")
  ∧ (inference Example.env
       [(Example.str "ok", VBool true, SamplingParams_defaults Example.env, None)]
       Example.context Example.world).1
    = Raise (UnboundLocalError "result").
Proof.
  split.
  - apply (proj1 (inference_needs_events Example.env (Example.str "none")
                    (VBool false) (SamplingParams_defaults Example.env) None
                    Example.context (lit "req-0") [] Example.world
                    ltac:(by vm_compute) ltac:(vm_compute; reflexivity))).
    vm_compute. reflexivity.
  - apply (proj2 (inference_needs_events Example.env (Example.str "ok")
                    (VBool true) (SamplingParams_defaults Example.env) None
                    Example.context (lit "req-0") [] Example.world
                    ltac:(by vm_compute) ltac:(vm_compute; reflexivity)));
      vm_compute; reflexivity.
Defined.

(** ** Payloads given as bytes *)

(** The decoder on the euro sign, a character outside the basic plane
    and an accented letter; and on an overlong form, a surrogate, a code
    point above U+10FFFF and a truncated sequence. *)
Example utf8_decode_valid :
  utf8_decode [0xE2; 0x82; 0xAC; 0xF0; 0x9F; 0x98; 0x80; 0xC3; 0xA9]%N
  = Some [0x20AC; 0x1F600; 0xE9]%N.
Proof. reflexivity. Qed.

Example utf8_decode_invalid :
  utf8_decode [0xC0; 0x80]%N = None
  ∧ utf8_decode [0xED; 0xA0; 0x80]%N = None
  ∧ utf8_decode [0xF4; 0x90; 0x80; 0x80]%N = None
  ∧ utf8_decode [0xE2; 0x82]%N = None.
Proof. by vm_compute. Qed.

(** C8, where the code departs from it.  A payload given as [bytes] is
    decoded and the decoded [str] is handed to
    [prepare_completion_request], whose [request.get] a [str] does not
    have: [preprocess] raises the attribute error for every payload that
    decodes, the decoding error for the others, and never returns a
    tuple. *)
Theorem bytes_payload_rejected (env : Env) (item : attrs) (bs : list byte)
    (ctx : Context) (w : World)
    (Hpayload : payload_of item = VBytes bs) :
  (∀ s, py_decode_utf8 bs = Ok s →
        preprocess env [VDict item] ctx w = (Raise AttributeError, w))
  ∧ (py_decode_utf8 bs = Raise UnicodeDecodeError →
        preprocess env [VDict item] ctx w = (Raise UnicodeDecodeError, w))
  ∧ (∀ r, (preprocess env [VDict item] ctx w).1 ≠ Ok r).
Proof.
  rewrite (preprocess_bytes env item bs ctx w Hpayload).
  split; [|split].
  - by intros s ->.
  - by intros ->.
  - intros r. simpl. by destruct (py_decode_utf8 bs).
Qed.

Lemma bytes_payload_rejected_witness :
  py_decode_utf8 (Example.json_bytes "{'prompt': 'hi'}")
  = Ok (lit "{" ++ [34%N] ++ lit "prompt" ++ [34%N] ++ lit ": "
          ++ [34%N] ++ lit "hi" ++ [34%N] ++ lit "}")
  ∧ preprocess Example.env
      [VDict (Example.item (VBytes (Example.json_bytes "{'prompt': 'hi'}")))]
      Example.context Example.world
    = (Raise AttributeError, Example.world).
Proof.
  split; [vm_compute; reflexivity|].
  eapply (proj1 (bytes_payload_rejected Example.env
                   (Example.item (VBytes (Example.json_bytes "{'prompt': 'hi'}")))
                   (Example.json_bytes "{'prompt': 'hi'}")
                   Example.context Example.world
                   ltac:(vm_compute; reflexivity))).
  vm_compute. reflexivity.
Defined.

(** The parts of C8 the code has: the payload is the [data] field when
    that is truthy and the [body] field otherwise; a mapping gives the
    tuple of prompt, stream flag with default [False], sampling
    parameters and adapter reference; bytes that are not UTF-8 raise the
    decoding error. *)
Lemma mapping_payload_prepared (env : Env) (item req : attrs) (ctx : Context)
    (w w' : World) (lora : option LoRARequest) :
  payload_of item = VDict req →
  get_lora_request env (VDict req) w = (Ok lora, w') →
  preprocess env [VDict item] ctx w
  = (Ok [(default VNone (req !! lit "prompt"),
          default (VBool false) (req !! lit "stream"),
          set_attr_value (SamplingParams_defaults env) req,
          lora)], w').
Proof.
  intros Hp Hl. by rewrite (preprocess_mapping env item req ctx w Hp), Hl.
Qed.

Example body_field_is_the_fallback :
  payload_of (<[lit "body" := Example.str "b"]> ∅) = Example.str "b"
  ∧ payload_of (<[lit "data" := VDict ∅]> (<[lit "body" := Example.str "b"]> ∅))
    = Example.str "b"
  ∧ payload_of (<[lit "data" := Example.str "d"]> (<[lit "body" := Example.str "b"]> ∅))
    = Example.str "d".
Proof. by vm_compute. Qed.

Example not_utf8_is_a_decoding_failure :
  preprocess Example.env [VDict (Example.item (VBytes [xff; xfe]))]
    Example.context Example.world
  = (Raise UnicodeDecodeError, Example.world).
Proof. vm_compute. reflexivity. Qed.

(** * Further properties of the handler *)

(** ** What a request leaves alone *)

(** [preprocess] changes the world by at most one adapter resolution. *)
Lemma preprocess_world (env : Env) (requests : list PyVal) (ctx : Context)
    (w : World) :
  (preprocess env requests ctx w).2 = w
  ∨ ∃ data, (preprocess env requests ctx w).2 = (get_lora_request env data w).2.
Proof.
  unfold preprocess, mbind, M_bind, lift.
  destruct (py_assert _); [|by left].
  destruct (py_first requests) as [req_data|]; [|by left].
  destruct (Res_bind PyVal PyVal _ _) as [data|]; [|by left].
  destruct (match data with VBytes _ => _ | _ => _ end) as [data'|]; [|by left].
  unfold prepare_completion_request, mbind, M_bind, lift.
  destruct (py_get data' (lit "prompt") VNone); [|by left].
  destruct (py_get data' (lit "stream") (VBool false)); [|by left].
  destruct (get_sampling_params env data'); [|by left].
  right. exists data'.
  by destruct (get_lora_request env data' w) as [[lora|e] w'].
Qed.

(** The loop only appends to the responses sent. *)
Lemma inference_loop_sent (ctx : Context) (stream : PyVal)
    (evs : list RequestOutput) (loc : Locals) (w : World) :
  ∃ new, sent (inference_loop ctx stream evs loc w).2 = sent w ++ new.
Proof.
  revert loc w. induction evs as [|e evs IH]; intros loc w.
  - exists []. simpl. by rewrite app_nil_r.
  - simpl. unfold mbind, M_bind.
    destruct (inference_step ctx stream loc e w) as [[loc'|err] w'] eqn:Hstep;
      unfold inference_step, mbind, M_bind, lift, push_sent in Hstep.
    + destruct (IH loc' w') as [new Hnew]. rewrite Hnew.
      destruct (negb (finished e) && py_truthy stream)%bool.
      * destruct (py_first (outputs e)) as [o|]; [|done]. simpl in Hstep.
        destruct (py_last (token_ids o)); [|done]. inversion Hstep; subst.
        simpl. rewrite <- app_assoc. by eexists.
      * inversion Hstep; subst. by eexists.
    + exists []. rewrite app_nil_r. simpl.
      destruct (negb (finished e) && py_truthy stream)%bool; [|done].
      destruct (py_first (outputs e)) as [o|]; [|by inversion Hstep].
      simpl in Hstep. destruct (py_last (token_ids o)); by inversion Hstep.
Qed.

(** [inference] leaves the handler as it is, makes at most one
    generation call and only appends to the responses sent. *)
Lemma inference_frame (env : Env)
    (input_batch : list (PyVal * PyVal * attrs * option LoRARequest))
    (ctx : Context) (w : World) :
  self (inference env input_batch ctx w).2 = self w
  ∧ (generated (inference env input_batch ctx w).2 = generated w
     ∨ ∃ c, generated (inference env input_batch ctx w).2 = generated w ++ [c])
  ∧ ∃ new, sent (inference env input_batch ctx w).2 = sent w ++ new.
Proof.
  assert (Hsame : ∀ r : Res (list JsonText),
    self (r, w).2 = self w
    ∧ (generated (r, w).2 = generated w
       ∨ ∃ c, generated (r, w).2 = generated w ++ [c])
    ∧ ∃ new, sent (r, w).2 = sent w ++ new).
  { intros r. simpl. split; [done|]. split; [by left|].
    exists []. by rewrite app_nil_r. }
  unfold inference, mbind, M_bind, lift, get_self, engine_generate_of.
  destruct (py_first input_batch) as [[[[prompt stream] params] lora]|];
    [|apply Hsame].
  destruct (vllm_engine (self w)); [|apply Hsame].
  destruct (py_first (request_ids ctx)) as [rid|]; [|apply Hsame].
  unfold push_generated.
  set (call := mkGenerateCall _ _ _ _). set (loc0 := mkLocals _ _ _).
  set (w1 := mkWorld _ _ _).
  pose proof (inference_loop_frame ctx stream (engine_generate env call) loc0 w1)
    as [Hg Hs].
  destruct (inference_loop_sent ctx stream (engine_generate env call) loc0 w1)
    as [new Hnew].
  destruct (inference_loop ctx stream (engine_generate env call) loc0 w1)
    as [[loc|err] w2]; simpl in Hg, Hs, Hnew;
    assert (Hend : self w2 = self w
              ∧ (generated w2 = generated w
                 ∨ ∃ c, generated w2 = generated w ++ [c])
              ∧ ∃ new, sent w2 = sent w ++ new)
      by (rewrite Hs, Hg, Hnew; subst w1; simpl;
          split; [done|]; split; [right; by eexists|]; by eexists);
    [|exact Hend].
  unfold mret, M_ret. destruct (negb (py_truthy stream)).
  - destruct (py_local "output" (output loc)) as [e|]; [|exact Hend]. simpl.
    by destruct (py_first (outputs e)).
  - by destruct (py_local "result" (result loc)).
Qed.

(** The world after [handle] is that after [preprocess], or that after
    [inference] run from there. *)
Lemma handle_world (env : Env) (data : list PyVal) (ctx : Context) (w : World) :
  (handle env data ctx w).2 = (preprocess env data ctx w).2
  ∨ ∃ batch,
      (handle env data ctx w).2
      = (inference env batch ctx (preprocess env data ctx w).2).2.
Proof.
  unfold handle, mbind, M_bind.
  destruct (preprocess env data ctx w) as [[batch|e] w1]; [|by left].
  right. exists batch. simpl.
  by destruct (inference env batch ctx w1) as [[out|e] w2].
Qed.

(** [handle] changes the identifier table by at most one step. *)
Lemma handle_table_step (env : Env) (data : list PyVal) (ctx : Context)
    (w : World) :
  table_step (lora_ids (self w)) (lora_ids (self (handle env data ctx w).2)).
Proof.
  assert (Hpre : table_step (lora_ids (self w))
                   (lora_ids (self (preprocess env data ctx w).2))).
  { destruct (preprocess_world env data ctx w) as [->|[d ->]]; [by left|].
    apply get_lora_request_effect. }
  destruct (handle_world env data ctx w) as [->|[batch ->]]; [done|].
  by rewrite (proj1 (inference_frame env batch ctx _)).
Qed.

(** X2.  Whatever the batch and the context, and whether it returns or
    raises, [handle] leaves the model directory, the adapters table, the
    engine and the initialized flag as they are, makes at most one
    generation call, and only appends to the intermediate responses
    already sent. *)
Theorem handle_frame (env : Env) (data : list PyVal) (ctx : Context) (w : World) :
  model_dir (self (handle env data ctx w).2) = model_dir (self w)
  ∧ adapters (self (handle env data ctx w).2) = adapters (self w)
  ∧ vllm_engine (self (handle env data ctx w).2) = vllm_engine (self w)
  ∧ initialized (self (handle env data ctx w).2) = initialized (self w)
  ∧ (generated (handle env data ctx w).2 = generated w
     ∨ ∃ c, generated (handle env data ctx w).2 = generated w ++ [c])
  ∧ ∃ new, sent (handle env data ctx w).2 = sent w ++ new.
Proof.
  assert (Hpre : let w1 := (preprocess env data ctx w).2 in
            model_dir (self w1) = model_dir (self w)
            ∧ adapters (self w1) = adapters (self w)
            ∧ vllm_engine (self w1) = vllm_engine (self w)
            ∧ initialized (self w1) = initialized (self w)
            ∧ generated w1 = generated w ∧ sent w1 = sent w).
  { destruct (preprocess_world env data ctx w) as [->|[d ->]]; [done|].
    destruct (get_lora_request_effect env d w) as (Hs & Hg & Ha & Hd & _).
    destruct (get_lora_request_config env d w) as [He Hi].
    by repeat split. }
  destruct Hpre as (Hd & Ha & He & Hi & Hg & Hs).
  destruct (handle_world env data ctx w) as [->|[batch ->]].
  - rewrite Hd, Ha, He, Hi, Hg, Hs. repeat split; [by left|].
    exists []. by rewrite app_nil_r.
  - destruct (inference_frame env batch ctx (preprocess env data ctx w).2)
      as (-> & Hgen & Hsent).
    rewrite Hg, Hs in *. by repeat split.
Qed.

(** ** The identifier table over the life of a process *)

Lemma table_step_full (m m' : gmap pystr Z) :
  table_step m m' → ids_full m → ids_full m'.
Proof.
  intros [->|(name & Hnone & ->)] Hfull; [done|].
  intros i. rewrite map_size_insert_None by done. intros Hi.
  destruct (decide (i = Z.of_nat (size m) + 1)) as [->|Hne].
  - exists name. apply lookup_insert_eq.
  - destruct (Hfull i) as [n Hn]; [lia|]. exists n.
    rewrite lookup_insert_ne; [done|]. intros <-. congruence.
Qed.

Lemma serve_table (env : Env) (calls : list (list PyVal * Context)) (w : World) :
  ids_wf (lora_ids (self w)) → ids_full (lora_ids (self w)) →
  ids_wf (lora_ids (self (serve env calls w)))
  ∧ ids_full (lora_ids (self (serve env calls w)))
  ∧ lora_ids (self w) ⊆ lora_ids (self (serve env calls w)).
Proof.
  revert w. induction calls as [|[data ctx] calls IH]; intros w Hwf Hfull;
    [done|].
  simpl. pose proof (handle_table_step env data ctx w) as Hstep.
  destruct (table_step_wf _ _ Hstep Hwf) as [Hwf' Hsub].
  pose proof (table_step_full _ _ Hstep Hfull) as Hfull'.
  destruct (IH _ Hwf' Hfull') as (Hwf'' & Hfull'' & Hsub').
  split; [done|]. split; [done|].
  by transitivity (lora_ids (self (handle env data ctx w).2)).
Qed.

(** X3.  In a process whose identifier table starts empty, after any
    requests served by [handle]: the identifiers in the table are exactly
    the numbers from 1 to its size, each held by one name; and requests
    served later neither remove a name nor change its identifier. *)
Theorem served_table_is_a_numbering (env : Env) (w0 : World)
    (calls later : list (list PyVal * Context))
    (Hfresh : lora_ids (self w0) = ∅) :
  let m := lora_ids (self (serve env calls w0)) in
  (∀ name id, m !! name = Some id → 1 ≤ id ≤ Z.of_nat (size m))
  ∧ (∀ n1 n2 id, m !! n1 = Some id → m !! n2 = Some id → n1 = n2)
  ∧ (∀ i, 1 ≤ i ≤ Z.of_nat (size m) → ∃ name, m !! name = Some i)
  ∧ (∀ name id, m !! name = Some id →
       lora_ids (self (serve env later (serve env calls w0))) !! name = Some id).
Proof.
  intros m.
  assert (Hwf0 : ids_wf (lora_ids (self w0))) by (rewrite Hfresh; apply ids_wf_empty).
  assert (Hfull0 : ids_full (lora_ids (self w0))).
  { rewrite Hfresh. intros i. rewrite map_size_empty. lia. }
  destruct (serve_table env calls w0 Hwf0 Hfull0) as ([Hrange Hinj] & Hfull & _).
  split; [done|]. split; [done|]. split; [done|].
  intros name id Hid.
  destruct (serve_table env later (serve env calls w0)) as (_ & _ & Hsub);
    [done..|].
  by eapply lookup_weaken.
Qed.

Lemma served_table_is_a_numbering_witness :
  let req name :=
    ([VDict (Example.item
               (VDict (Example.request [("prompt", Example.str "hi");
                                        ("lora_adapter", Example.str name)])))],
     Example.context) in
  let m := lora_ids (self (serve Example.env [req "B"; req "Z"; req "A"; req "B"]
                             Example.world)) in
  m !! lit "B" = Some 1 ∧ m !! lit "A" = Some 2 ∧ size m = 2%nat
  ∧ ∀ i, 1 ≤ i ≤ Z.of_nat (size m) → ∃ name, m !! name = Some i.
Proof.
  intros req m.
  split; [vm_compute; reflexivity|]. split; [vm_compute; reflexivity|].
  split; [vm_compute; reflexivity|].
  apply (served_table_is_a_numbering Example.env Example.world
           [req "B"; req "Z"; req "A"; req "B"] []).
  vm_compute. reflexivity.
Defined.

(** ** Initialization *)

(** X1.  [initialize] never touches the identifier table, the responses
    sent or the generation calls.  When it returns, the handler is
    initialized, its model directory is the [model_dir] system property,
    its adapters table is the [adapters] entry of the handler
    configuration (an empty mapping when there is none) and its engine is
    the one constructed from the arguments [_get_vllm_engine_config]
    returns for that model directory.  When it raises, the handler keeps
    the initialized flag and the engine it had; and when it is the
    construction of the engine that raises, the model directory and the
    adapters table have already been replaced. *)
Theorem initialize_outcome (env : Env) (ctx : Context) (w : World) :
  lora_ids (self (initialize env ctx w).2) = lora_ids (self w)
  ∧ sent (initialize env ctx w).2 = sent w
  ∧ generated (initialize env ctx w).2 = generated w
  ∧ ((initialize env ctx w).1 = Ok tt →
       initialized (self (initialize env ctx w).2) = true
       ∧ py_get (system_properties ctx) (lit "model_dir") VNone
         = Ok (model_dir (self (initialize env ctx w).2))
       ∧ ∃ hc cfg,
           py_get (model_yaml_config ctx) (lit "handler") (VDict ∅) = Ok hc
           ∧ py_get hc (lit "adapters") (VDict ∅)
             = Ok (adapters (self (initialize env ctx w).2))
           ∧ get_vllm_engine_config env
               {| vllm_engine := vllm_engine (self w);
                  model_dir := model_dir (self (initialize env ctx w).2);
                  lora_ids := lora_ids (self w);
                  adapters := adapters (self w);
                  initialized := initialized (self w) |} hc = Ok cfg
           ∧ from_engine_args env cfg = Ok tt
           ∧ vllm_engine (self (initialize env ctx w).2) = Some cfg)
  ∧ (∀ e, (initialize env ctx w).1 = Raise e →
       initialized (self (initialize env ctx w).2) = initialized (self w)
       ∧ vllm_engine (self (initialize env ctx w).2) = vllm_engine (self w))
  ∧ (∀ dir hc cfg ad e,
       py_get (system_properties ctx) (lit "model_dir") VNone = Ok dir →
       py_get (model_yaml_config ctx) (lit "handler") (VDict ∅) = Ok hc →
       get_vllm_engine_config env
         {| vllm_engine := vllm_engine (self w); model_dir := dir;
            lora_ids := lora_ids (self w); adapters := adapters (self w);
            initialized := initialized (self w) |} hc = Ok cfg →
       py_get hc (lit "adapters") (VDict ∅) = Ok ad →
       from_engine_args env cfg = Raise e →
       (initialize env ctx w).1 = Raise e
       ∧ model_dir (self (initialize env ctx w).2) = dir
       ∧ adapters (self (initialize env ctx w).2) = ad).
Proof.
  unfold initialize, mbind, M_bind, lift, get_self, put_self. simpl.
  destruct (py_get (system_properties ctx) (lit "model_dir") VNone)
    as [dir|e1]; simpl; [|by repeat split].
  destruct (py_get (model_yaml_config ctx) (lit "handler") (VDict ∅))
    as [hc|e2]; simpl; [|by repeat split].
  destruct (get_vllm_engine_config env _ hc) as [cfg|e3] eqn:Hcfg; simpl;
    [|repeat split; try done; intros; simplify_eq; congruence].
  destruct (py_get hc (lit "adapters") (VDict ∅)) as [ad|e4] eqn:Had; simpl;
    [|repeat split; try done; intros; simplify_eq; congruence].
  destruct (from_engine_args env cfg) as [[]|e5] eqn:Heng; simpl.
  - repeat split; try done; [by exists hc, cfg|..];
      intros; simplify_eq; congruence.
  - repeat split; try done; intros; simplify_eq; congruence.
Qed.

Lemma initialize_outcome_witness :
  initialized (self (initialize Example.env Example.context new_world).2) = true
  ∧ initialized
      (self (initialize Example.env
               (mkContext (Example.dict [("model_dir", Example.str "/models")])
                  (Example.dict []) [])
               new_world).2) = false
  ∧ (initialize Example.env_no_engine Example.context new_world).1
    = Raise EngineError
  ∧ adapters (self (initialize Example.env_no_engine Example.context new_world).2)
    = Example.dict [("A", Example.str "a"); ("B", Example.str "b");
                    ("E", Example.str "")].
Proof.
  split; [|split].
  - apply (proj1 (proj2 (proj2 (proj2
             (initialize_outcome Example.env Example.context new_world))))).
    vm_compute. reflexivity.
  - refine (proj1 (proj1 (proj2 (proj2 (proj2 (proj2
             (initialize_outcome Example.env
                (mkContext (Example.dict [("model_dir", Example.str "/models")])
                   (Example.dict []) [])
                new_world))))) AssertionError _)).
    vm_compute. reflexivity.
  - destruct (proj2 (proj2 (proj2 (proj2 (proj2
               (initialize_outcome Example.env_no_engine Example.context
                  new_world)))))
               (Example.str "/models") Example.handler_config
               (<[lit "model" := VPath (lit "/models/llama")]>
                  (AsyncEngineArgs_defaults Example.env))
               (Example.dict [("A", Example.str "a"); ("B", Example.str "b");
                              ("E", Example.str "")])
               EngineError
               ltac:(vm_compute; reflexivity) ltac:(vm_compute; reflexivity)
               ltac:(vm_compute; reflexivity) ltac:(vm_compute; reflexivity)
               ltac:(vm_compute; reflexivity))
      as (Hraise & _ & Had).
    split; [exact Hraise | exact Had].
Defined.

(** ** Requests that do not stream *)

(** X4.  A request whose payload is a mapping with a false [stream]
    sends no intermediate response, whatever events the engine produces
    and whether [handle] returns or raises. *)
Theorem not_streaming_sends_nothing (env : Env) (item req : attrs)
    (ctx : Context) (w : World)
    (Hpayload : payload_of item = VDict req)
    (Hstream : py_truthy (default (VBool false) (req !! lit "stream")) = false) :
  sent (handle env [VDict item] ctx w).2 = sent w.
Proof.
  rewrite (handle_mapping env item req ctx w Hpayload).
  destruct (get_lora_request_effect env (VDict req) w) as (Hs & _).
  destruct (get_lora_request env (VDict req) w) as [[lora|e] w']; simpl in Hs;
    [|done].
  rewrite <- Hs.
  unfold prepared, inference, mbind, M_bind, lift, get_self, engine_generate_of.
  simpl. destruct (vllm_engine (self w')); [|done]. simpl.
  destruct (py_first (request_ids ctx)) as [rid|]; [|done]. simpl.
  rewrite inference_loop_silent by done. rewrite Hstream. simpl.
  set (o := from_option _ _ _). destruct o as [e|]; [|done]. simpl.
  by destruct (py_first (outputs e)).
Qed.

Lemma not_streaming_sends_nothing_witness :
  sent (handle Example.env
          [VDict (Example.item
                    (VDict (Example.request [("prompt", Example.str "hi");
                                             ("stream", VInt 0)])))]
          Example.context Example.world).2
  = sent Example.world.
Proof.
  apply (not_streaming_sends_nothing Example.env _
           (Example.request [("prompt", Example.str "hi"); ("stream", VInt 0)]));
    vm_compute; reflexivity.
Defined.

(** ** Resolving an adapter *)

(** X5.  A request naming an adapter that the table maps to a non-empty
    [str] path, in a handler whose model directory is a [str], resolves
    to the adapter's name, its identifier (the recorded one, or the
    table's size plus one for a new name, which is then recorded) and the
    path joined to the model directory; and on a handler that has its
    engine the generation call of [handle] carries that reference. *)
Theorem adapter_resolved (env : Env) (item req tbl : attrs) (ctx : Context)
    (w : World) (name p root : pystr)
    (Hpayload : payload_of item = VDict req)
    (Htbl : adapters (self w) = VDict tbl)
    (Hroot : model_dir (self w) = VStr root)
    (Hname : req !! lit "lora_adapter" = Some (VStr name))
    (Hne : name ≠ [])
    (Hpath : tbl !! name = Some (VStr p))
    (Hp : p ≠ []) :
  let id := default (Z.of_nat (size (lora_ids (self w))) + 1)
              (lora_ids (self w) !! name) in
  let l := mkLoRARequest (VStr name) id (joinpath env root p) in
  (get_lora_request env (VDict req) w).1 = Ok (Some l)
  ∧ lora_ids (self (get_lora_request env (VDict req) w).2)
    = <[name := id]> (lora_ids (self w))
  ∧ ∀ rid rest,
      vllm_engine (self w) ≠ None →
      request_ids ctx = rid :: rest →
      generated (handle env [VDict item] ctx w).2
      = generated w
          ++ [mkGenerateCall (default VNone (req !! lit "prompt"))
                (set_attr_value (SamplingParams_defaults env) req)
                rid (Some l)].
Proof.
  intros id l.
  assert (Hres : ∃ w', get_lora_request env (VDict req) w = (Ok (Some l), w')
            ∧ lora_ids (self w') = <[name := id]> (lora_ids (self w))
            ∧ generated w' = generated w).
  { unfold get_lora_request, lora_ids_setdefault, mbind, M_bind, lift,
      get_self, put_self, mret, M_ret. simpl.
    rewrite Hname. simpl. destruct name as [|c name]; [done|]. simpl.
    rewrite Htbl. simpl. rewrite Hpath. simpl.
    destruct p as [|c' p]; [done|]. simpl.
    subst l id. rewrite Hroot.
    destruct (lora_ids (self w) !! (c :: name)) as [i|] eqn:Hl; simpl.
    - eexists. split; [reflexivity|]. split; [|done].
      symmetry. by apply insert_id.
    - eexists. split; [reflexivity|]. by split. }
  destruct Hres as (w' & Hres & Htab & Hgen).
  rewrite Hres. simpl. split; [done|]. split; [done|].
  intros rid rest Hengine Hrid.
  pose proof (get_lora_request_config env (VDict req) w) as [Heng _].
  rewrite Hres in Heng. simpl in Heng. rewrite <- Heng in Hengine.
  rewrite (handle_mapping env item req ctx w Hpayload), Hres. unfold prepared.
  rewrite (inference_generated env _ _ _ _ ctx rid rest w' Hengine Hrid).
  by rewrite Hgen.
Qed.

Lemma adapter_resolved_witness :
  (get_lora_request Example.env
     (VDict (Example.request [("prompt", Example.str "hi");
                              ("lora_adapter", Example.str "B")]))
     Example.world).1
  = Ok (Some (mkLoRARequest (Example.str "B") 1 (lit "/models/b")))
  ∧ List.map gc_lora
      (generated
         (handle Example.env
            [VDict (Example.item
                      (VDict (Example.request [("prompt", Example.str "hi");
                                               ("lora_adapter", Example.str "B")])))]
            Example.context Example.world).2)
    = [Some (mkLoRARequest (Example.str "B") 1 (lit "/models/b"))].
Proof.
  destruct (adapter_resolved Example.env
              (Example.item
                 (VDict (Example.request [("prompt", Example.str "hi");
                                          ("lora_adapter", Example.str "B")])))
              (Example.request [("prompt", Example.str "hi");
                                ("lora_adapter", Example.str "B")])
              (Example.request [("A", Example.str "a"); ("B", Example.str "b");
                                ("E", Example.str "")])
              Example.context Example.world (lit "B") (lit "b") (lit "/models")
              ltac:(by vm_compute) ltac:(by vm_compute) ltac:(by vm_compute)
              ltac:(by vm_compute) ltac:(by vm_compute) ltac:(by vm_compute)
              ltac:(by vm_compute))
    as (Hres & _ & Hgen).
  split; [exact Hres|].
  rewrite (Hgen (lit "req-0") [] ltac:(by vm_compute) ltac:(by vm_compute)).
  reflexivity.
Defined.

(** X6.  Resolving the adapter of the same request a second time gives
    the same outcome, reference or exception, and changes nothing. *)
Theorem resolution_is_idempotent (env : Env) (req_data : PyVal) (w : World) :
  get_lora_request env req_data (get_lora_request env req_data w).2
  = get_lora_request env req_data w.
Proof.
  unfold get_lora_request, mbind, M_bind, lift, get_self. simpl.
  destruct (py_get req_data _ _) as [adapter_name|e]; [|done].
  destruct (py_len adapter_name) as [n|e]; [|done].
  destruct (Nat.ltb 0 n); [|done].
  destruct (py_get_key (adapters (self w)) adapter_name _)
    as [adapter_path|e] eqn:Hget; simpl; [|by rewrite Hget].
  destruct (py_len adapter_path) as [[|m]|e] eqn:Hlen; simpl;
    [by rewrite Hget; simpl; rewrite Hlen| |by rewrite Hget; simpl; rewrite Hlen].
  destruct adapter_name as [| | |name| | | |];
    try (simpl; rewrite Hget; simpl; by rewrite Hlen).
  destruct (lora_ids_setdefault_effect name w)
    as (id & w' & Hset & _ & _ & Ha & Hd & _ & Hid & _).
  assert (Hagain : lora_ids_setdefault (VStr name) w' = (Ok id, w')).
  { unfold lora_ids_setdefault, mbind, M_bind, get_self. simpl.
    by rewrite Hid. }
  rewrite Hset.
  destruct (py_joinpath env (model_dir (self w)) adapter_path) as [p|e] eqn:Hj;
    cbn -[lora_ids_setdefault py_joinpath]; rewrite Ha, Hget;
    cbn -[lora_ids_setdefault py_joinpath]; rewrite Hlen;
    cbn -[lora_ids_setdefault py_joinpath]; rewrite Hagain, Hd, Hj; done.
Qed.

(** X7.  An adapter name that has no length (a null, a number, a
    boolean) is not taken for a missing name: the resolution and
    [handle] raise a type error, and no generation call is made. *)
Theorem unsized_adapter_name (env : Env) (item req : attrs) (ctx : Context)
    (w : World) (v : PyVal)
    (Hpayload : payload_of item = VDict req)
    (Hname : req !! lit "lora_adapter" = Some v)
    (Hlen : py_len v = Raise TypeError) :
  get_lora_request env (VDict req) w = (Raise TypeError, w)
  ∧ handle env [VDict item] ctx w = (Raise TypeError, w).
Proof.
  assert (Hres : get_lora_request env (VDict req) w = (Raise TypeError, w)).
  { unfold get_lora_request, mbind, M_bind, lift. simpl.
    rewrite Hname. simpl. by rewrite Hlen. }
  split; [done|].
  by rewrite (handle_mapping env item req ctx w Hpayload), Hres.
Qed.

Lemma unsized_adapter_name_witness :
  handle Example.env
    [VDict (Example.item
              (VDict (Example.request [("prompt", Example.str "hi");
                                       ("lora_adapter", VNone)])))]
    Example.context Example.world
  = (Raise TypeError, Example.world).
Proof.
  apply (unsized_adapter_name Example.env _
           (Example.request [("prompt", Example.str "hi");
                             ("lora_adapter", VNone)])
           Example.context Example.world VNone);
    vm_compute; reflexivity.
Defined.

(** X8.  The identifier is recorded before the adapter path is built:
    when the path cannot be built, because the model directory or the
    configured path is not path-like, the resolution of a new name raises
    a type error and the name has nevertheless taken the next
    identifier. *)
Theorem identifier_recorded_before_path (env : Env) (req tbl : attrs)
    (w : World) (name : pystr) (p : PyVal) (n : nat)
    (Htbl : adapters (self w) = VDict tbl)
    (Hname : req !! lit "lora_adapter" = Some (VStr name))
    (Hne : name ≠ [])
    (Hpath : tbl !! name = Some p)
    (Hlen : py_len p = Ok (S n))
    (Hjoin : py_joinpath env (model_dir (self w)) p = Raise TypeError)
    (Hnew : lora_ids (self w) !! name = None) :
  (get_lora_request env (VDict req) w).1 = Raise TypeError
  ∧ lora_ids (self (get_lora_request env (VDict req) w).2)
    = <[name := Z.of_nat (size (lora_ids (self w))) + 1]> (lora_ids (self w)).
Proof.
  unfold get_lora_request, lora_ids_setdefault, mbind, M_bind, lift,
    get_self, put_self, mret, M_ret. simpl.
  rewrite Hname. simpl. destruct name as [|c name]; [done|]. simpl.
  rewrite Htbl. simpl. rewrite Hpath. simpl. rewrite Hlen. simpl.
  rewrite Hnew. simpl. by rewrite Hjoin.
Qed.

Lemma identifier_recorded_before_path_witness :
  let w := (initialize Example.env Example.context_without_model_dir new_world).2 in
  let req := Example.request [("prompt", Example.str "hi");
                              ("lora_adapter", Example.str "A")] in
  (get_lora_request Example.env (VDict req) w).1 = Raise TypeError
  ∧ lora_ids (self (get_lora_request Example.env (VDict req) w).2)
    = <[lit "A" := Z.of_nat (size (lora_ids (self w))) + 1]> (lora_ids (self w)).
Proof.
  intros w req.
  apply (identifier_recorded_before_path Example.env req
           (Example.request [("A", Example.str "a")]) w (lit "A")
           (Example.str "a") 0);
    by vm_compute.
Defined.

Lemma initialize_table (env : Env) (ctx : Context) (w : World) :
  lora_ids (self (initialize env ctx w).2) = lora_ids (self w).
Proof.
  unfold initialize, mbind, M_bind, lift, get_self, put_self. simpl.
  destruct (py_get (system_properties ctx) _ _); simpl; [|done].
  destruct (py_get (model_yaml_config ctx) _ _) as [hc|]; simpl; [|done].
  destruct (get_vllm_engine_config env _ hc) as [cfg|]; simpl; [|done].
  destruct (py_get hc _ _); simpl; [|done].
  by destruct (from_engine_args env cfg).
Qed.

(** X9.  [initialize] on a new handler leaves the identifier table
    empty: an adapter resolution made on the state it leaves, before any
    other, returns identifier 1 when it succeeds. *)
Theorem first_adapter_after_initialize (env : Env) (ctx : Context)
    (req_data : PyVal) (l : LoRARequest)
    (Hres : (get_lora_request env req_data (initialize env ctx new_world).2).1
            = Ok (Some l)) :
  lora_int_id l = 1.
Proof.
  destruct (get_lora_request_effect env req_data (initialize env ctx new_world).2)
    as (_ & _ & _ & _ & _ & Hl).
  destruct (Hl l Hres) as (name & _ & _ & Hnew).
  rewrite initialize_table in Hnew. simpl in Hnew.
  rewrite Hnew; [done|]. apply lookup_empty.
Qed.

Lemma first_adapter_after_initialize_witness :
  ∃ l,
    (get_lora_request Example.env
       (VDict (Example.request [("lora_adapter", Example.str "B")]))
       (initialize Example.env Example.context new_world).2).1 = Ok (Some l)
    ∧ lora_int_id l = 1.
Proof.
  exists (mkLoRARequest (Example.str "B") 1 (lit "/models/b")).
  assert (Hres : (get_lora_request Example.env
                    (VDict (Example.request [("lora_adapter", Example.str "B")]))
                    (initialize Example.env Example.context new_world).2).1
                 = Ok (Some (mkLoRARequest (Example.str "B") 1 (lit "/models/b"))))
    by (vm_compute; reflexivity).
  split; [exact Hres|].
  exact (first_adapter_after_initialize Example.env Example.context _ _ Hres).
Defined.

(** ** The merge as an operation *)

(** X10.  [_set_attr_value] keeps the set of attributes; merging nothing
    changes nothing; merging the same mapping again changes nothing;
    and merging [c1] and then [c2] is merging, at once, the mapping that
    has the items of [c2] and the items of [c1] under the keys [c2]
    lacks. *)
Theorem merge_composes (obj c1 c2 : attrs) :
  dom (set_attr_value obj c1) = dom obj
  ∧ set_attr_value obj ∅ = obj
  ∧ set_attr_value (set_attr_value obj c1) c1 = set_attr_value obj c1
  ∧ set_attr_value (set_attr_value obj c1) c2 = set_attr_value obj (c2 ∪ c1).
Proof.
  split; [apply set_attr_value_dom|]. split; [|split].
  - apply map_eq. intros k. rewrite set_attr_value_lookup, lookup_empty.
    by destruct (obj !! k).
  - apply map_eq. intros k. rewrite !set_attr_value_lookup.
    destruct (obj !! k); [|done]. by destruct (c1 !! k).
  - apply map_eq. intros k. rewrite !set_attr_value_lookup, lookup_union.
    destruct (obj !! k); [|done]. by destruct (c2 !! k), (c1 !! k).
Qed.

(** X11.  Neither a request nor the deployment configuration adds or
    removes a field: the sampling parameters built for a request have
    the attributes of the default ones, and the engine arguments have
    [model] and the attributes of the default ones. *)
Theorem merged_objects_keep_their_fields (env : Env) :
  (∀ req_data params,
      get_sampling_params env req_data = Ok params →
      dom params = dom (SamplingParams_defaults env))
  ∧ (∀ slf handler_config cfg,
      get_vllm_engine_config env slf handler_config = Ok cfg →
      dom cfg = {[lit "model"]} ∪ dom (AsyncEngineArgs_defaults env)).
Proof.
  split.
  - intros req_data params. unfold get_sampling_params.
    destruct (py_items req_data) as [config|]; [|done]. simpl.
    intros [= <-]. apply set_attr_value_dom.
  - intros slf hc cfg. unfold get_vllm_engine_config.
    destruct (resolve_model env slf hc) as [model|]; [|done]. simpl.
    destruct (py_get hc _ _) as [params|]; [|done]. simpl.
    destruct (py_items params) as [config|]; [|done]. simpl.
    intros [= <-]. rewrite set_attr_value_dom. unfold AsyncEngineArgs.
    by rewrite dom_insert_L.
Qed.

Lemma merged_objects_keep_their_fields_witness :
  dom (set_attr_value (SamplingParams_defaults Example.env)
         (Example.request [("prompt", Example.str "hi"); ("max_tokens", VInt 5);
                           ("top_k", VInt 3)]))
  = dom (SamplingParams_defaults Example.env).
Proof.
  apply (proj1 (merged_objects_keep_their_fields Example.env)
           (VDict (Example.request [("prompt", Example.str "hi");
                                    ("max_tokens", VInt 5); ("top_k", VInt 3)]))).
  reflexivity.
Defined.

(** X12.  The engine section's own [model] entry, empty or not, is what
    the returned engine arguments hold: the merge writes it over the
    model the arguments were constructed with. *)
Theorem engine_section_model_wins (env : Env) (slf : VLLMHandler)
    (handler_config : PyVal) (params cfg : attrs) (m : PyVal)
    (Hparams : py_get handler_config (lit "vllm_engine_config") (VDict ∅)
               = Ok (VDict params))
    (Hmodel : params !! lit "model" = Some m)
    (Hcfg : get_vllm_engine_config env slf handler_config = Ok cfg) :
  cfg !! lit "model" = Some m.
Proof.
  destruct (engine_config_model env slf handler_config cfg Hcfg)
    as (params' & resolved & Hp & _ & ->).
  rewrite Hparams in Hp. injection Hp as <-. by rewrite Hmodel.
Qed.

Lemma engine_section_model_wins_witness :
  let hc := Example.dict [("vllm_engine_config",
                           Example.dict [("model", Example.str "")]);
                          ("model_path", Example.str "llama")] in
  resolve_model Example.env (self Example.world) hc
  = Ok (VPath (lit "/models/llama"))
  ∧ ∃ cfg, get_vllm_engine_config Example.env (self Example.world) hc = Ok cfg
           ∧ cfg !! lit "model" = Some (Example.str "").
Proof.
  intros hc. split; [vm_compute; reflexivity|].
  destruct (get_vllm_engine_config Example.env (self Example.world) hc)
    as [cfg|e] eqn:Hcfg; [|vm_compute in Hcfg; discriminate Hcfg].
  exists cfg. split; [reflexivity|].
  apply (engine_section_model_wins Example.env (self Example.world) hc
           (Example.request [("model", Example.str "")]) cfg (Example.str ""));
    [vm_compute; reflexivity | vm_compute; reflexivity | exact Hcfg].
Defined.

(** ** The stream flag *)

Lemma inference_loop_truth (ctx : Context) (s1 s2 : PyVal)
    (evs : list RequestOutput) (loc : Locals) (w : World) :
  py_truthy s1 = py_truthy s2 →
  inference_loop ctx s1 evs loc w = inference_loop ctx s2 evs loc w.
Proof.
  intros Hs. revert loc w. induction evs as [|e evs IH]; intros loc w; [done|].
  assert (Hstep : inference_step ctx s1 loc e w = inference_step ctx s2 loc e w)
    by (unfold inference_step; by rewrite Hs).
  simpl. unfold mbind, M_bind. rewrite Hstep.
  destruct (inference_step ctx s2 loc e w) as [[loc'|err] w']; [apply IH|done].
Qed.

(** X13.  The [stream] field acts through its truth value only: two
    values that are both true, or both false, give the same outcome and
    the same responses, so a non-empty string or a non-zero number turns
    streaming on as [True] does. *)
Theorem stream_acts_by_truth (env : Env) prompt (s1 s2 : PyVal) params lora
    (ctx : Context) (w : World)
    (Hs : py_truthy s1 = py_truthy s2) :
  inference env [(prompt, s1, params, lora)] ctx w
  = inference env [(prompt, s2, params, lora)] ctx w.
Proof.
  unfold inference, mbind, M_bind, lift. simpl.
  destruct (py_first (request_ids ctx)) as [rid|]; [|done]. simpl.
  rewrite (inference_loop_truth ctx s1 s2) by done.
  by rewrite Hs.
Qed.

Lemma stream_acts_by_truth_witness :
  inference Example.env
    [(Example.str "hi", Example.str "false", SamplingParams_defaults Example.env,
      None)] Example.context Example.world
  = inference Example.env
      [(Example.str "hi", VBool true, SamplingParams_defaults Example.env,
        None)] Example.context Example.world.
Proof.
  apply (stream_acts_by_truth Example.env). reflexivity.
Defined.

(** ** A stream that breaks *)

Lemma inference_loop_app (ctx : Context) (stream : PyVal)
    (evs1 evs2 : list RequestOutput) (loc : Locals) (w : World) :
  inference_loop ctx stream (evs1 ++ evs2) loc w =
    match inference_loop ctx stream evs1 loc w with
    | (Ok loc', w') => inference_loop ctx stream evs2 loc' w'
    | (Raise e, w') => (Raise e, w')
    end.
Proof.
  revert loc w. induction evs1 as [|e evs1 IH]; intros loc w; [done|].
  simpl. unfold mbind, M_bind.
  destruct (inference_step ctx stream loc e w) as [[loc'|err] w']; [|done].
  apply IH.
Qed.

(** X14.  On a handler that has its engine, when a streaming request
    meets an event that is not final and has no completion, or a
    completion without tokens, [inference]
    raises an index error there; the responses for the events before it
    have been sent and stay sent, the events after it are not looked at,
    and no final response is returned. *)
Theorem stream_breaks_at_bad_event (env : Env) prompt stream params lora
    (ctx : Context) rid rest (w : World)
    (good later : list RequestOutput) (bad : RequestOutput)
    (Hengine : vllm_engine (self w) ≠ None)
    (Hrid : request_ids ctx = rid :: rest)
    (Hstream : py_truthy stream = true)
    (Hevs : engine_generate env (mkGenerateCall prompt params rid lora)
            = good ++ bad :: later)
    (Hgood : forallb streamable good = true)
    (Hbad : streamable bad = false) :
  ∃ new,
    streamed ctx 0 good new
    ∧ inference env [(prompt, stream, params, lora)] ctx w
      = (Raise IndexError,
         {| self := self w; sent := sent w ++ new;
            generated := generated w
                           ++ [mkGenerateCall prompt params rid lora] |}).
Proof.
  unfold inference, mbind, M_bind, lift, get_self, engine_generate_of. simpl.
  destruct (vllm_engine (self w)); [|done]. simpl. rewrite Hrid. simpl.
  rewrite Hevs, inference_loop_app.
  set (loc0 := mkLocals _ _ _). unfold push_generated. simpl.
  set (w1 := mkWorld _ _ _).
  destruct (inference_loop_streaming ctx stream good loc0 w1 Hstream Hgood)
    as (new & loc' & -> & Hp & _).
  exists new. split; [by apply pushes_streamed|]. simpl. unfold mbind, M_bind, inference_step.
  rewrite Hstream, andb_true_r.
  unfold streamable in Hbad. apply orb_false_elim in Hbad as [-> Hbad]. simpl.
  destruct (outputs bad) as [|o os]; [done|]. simpl.
  apply negb_false_iff, Nat.eqb_eq in Hbad.
  unfold mbind, M_bind, lift, py_last.
  destruct (token_ids o); [done|discriminate].
Qed.

Lemma stream_breaks_at_bad_event_witness :
  ∃ new,
    List.map pushed_text new = [lit "He"]
    ∧ inference Example.env_broken
        [(Example.str "hi", VBool true, SamplingParams_defaults Example.env, None)]
        Example.context Example.world
      = (Raise IndexError,
         {| self := self Example.world; sent := sent Example.world ++ new;
            generated := generated Example.world
                           ++ [mkGenerateCall (Example.str "hi")
                                 (SamplingParams_defaults Example.env)
                                 (lit "req-0") None] |}).
Proof.
  destruct (stream_breaks_at_bad_event Example.env_broken (Example.str "hi")
              (VBool true) (SamplingParams_defaults Example.env) None
              Example.context (lit "req-0") [] Example.world
              [Example.event false "He" [1]]
              [Example.event true "Hello" [1; 2; 3]]
              (mkRequestOutput false [])
              ltac:(by vm_compute)
              eq_refl eq_refl eq_refl eq_refl eq_refl) as (new & Hp & Hinf).
  exists new. split; [|exact Hinf].
  inversion Hp as [|? ? ? ? Hfin|? ? ? ? ? ? ? ? Hfin Ho Htok Hi Hrest]; subst;
    [discriminate Hfin|].
  inversion Hrest; subst. injection Ho as <- <-.
  destruct Hi as (j & d & Hret & Hd & _ & Htext & _).
  simpl. unfold pushed_text, pushed_doc. rewrite Hret, Hd.
  rewrite Hd in Htext. simpl in Htext.
  destruct (d !! lit "text") as [v|]; [|discriminate Htext].
  injection Htext as ->. reflexivity.
Defined.

(** ** Payloads that are no mapping *)

(** X15.  A request item that is no mapping, or whose payload (the
    [data] field, or the [body] field when [data] is missing or falsy) is
    neither a mapping nor bytes, makes [handle] raise an attribute error;
    nothing is recorded and no generation call is made.  An item with
    neither field is such an item. *)
Theorem payload_must_be_a_mapping (env : Env) (ctx : Context) (w : World) :
  (∀ v, is_dict v = false → handle env [v] ctx w = (Raise AttributeError, w))
  ∧ (∀ item,
       is_dict (payload_of item) = false →
       is_bytes (payload_of item) = false →
       handle env [VDict item] ctx w = (Raise AttributeError, w))
  ∧ (∀ item,
       item !! lit "data" = None → item !! lit "body" = None →
       handle env [VDict item] ctx w = (Raise AttributeError, w)).
Proof.
  assert (Hpay : ∀ item,
    is_dict (payload_of item) = false → is_bytes (payload_of item) = false →
    handle env [VDict item] ctx w = (Raise AttributeError, w)).
  { intros item Hd Hb. unfold payload_of, py_or in Hd, Hb.
    unfold handle, preprocess, mbind, M_bind, lift. simpl.
    destruct (py_truthy (default VNone (item !! lit "data"))); simpl;
      match goal with
      | H : is_dict ?p = false |- _ => by destruct p
      end. }
  split; [|split]; [|done|].
  - intros v Hv. unfold handle, preprocess, mbind, M_bind, lift. simpl.
    by destruct v.
  - intros item Hdata Hbody. apply Hpay; unfold payload_of, py_or;
      by rewrite Hdata, Hbody.
Qed.

Lemma payload_must_be_a_mapping_witness :
  handle Example.env [VDict ∅] Example.context Example.world
  = (Raise AttributeError, Example.world)
  ∧ handle Example.env [VDict (Example.item (Example.str "hi"))]
      Example.context Example.world
    = (Raise AttributeError, Example.world).
Proof.
  split.
  - apply (proj2 (proj2 (payload_must_be_a_mapping Example.env Example.context
                           Example.world))); reflexivity.
  - apply (proj1 (proj2 (payload_must_be_a_mapping Example.env Example.context
                           Example.world))); reflexivity.
Defined.

(** ** What a request that does not stream reads *)

(** X16.  A request that does not stream reads the engine's last event
    only: two engines whose event sequences end with the same event give
    the same outcome, whatever came before; and on a handler that has its
    engine a last event without a completion gives an index error. *)
Theorem not_streaming_reads_last_event (env env' : Env) prompt stream params
    lora (ctx : Context) rid rest (w : World)
    (Hrid : request_ids ctx = rid :: rest)
    (Hstream : py_truthy stream = false)
    (Hclock : clock env = clock env')
    (Hlast : last (engine_generate env (mkGenerateCall prompt params rid lora))
             = last (engine_generate env' (mkGenerateCall prompt params rid lora))) :
  inference env [(prompt, stream, params, lora)] ctx w
  = inference env' [(prompt, stream, params, lora)] ctx w
  ∧ (vllm_engine (self w) ≠ None →
     ∀ e, last (engine_generate env (mkGenerateCall prompt params rid lora))
          = Some e →
          outputs e = [] →
          (inference env [(prompt, stream, params, lora)] ctx w).1
          = Raise IndexError).
Proof.
  split.
  - destruct (vllm_engine (self w)) as [eng|] eqn:Heng.
    + assert (Hengine : vllm_engine (self w) ≠ None) by (by rewrite Heng).
      rewrite !(inference_not_streaming _ _ _ _ _ ctx rid rest w Hengine Hrid
                  Hstream).
      by rewrite Hlast, Hclock.
    + unfold inference, mbind, M_bind, lift, get_self, engine_generate_of.
      simpl. by rewrite Heng.
  - intros Hengine e He Ho.
    rewrite (inference_not_streaming _ _ _ _ _ ctx rid rest w Hengine Hrid
               Hstream).
    simpl. by rewrite He, Ho.
Qed.

Lemma not_streaming_reads_last_event_witness :
  inference Example.env
    [(Example.str "hi", VBool false, SamplingParams_defaults Example.env, None)]
    Example.context Example.world
  = inference Example.env_broken
      [(Example.str "hi", VBool false, SamplingParams_defaults Example.env, None)]
      Example.context Example.world
  ∧ (inference Example.env_empty_final
       [(Example.str "hi", VBool false, SamplingParams_defaults Example.env, None)]
       Example.context Example.world).1
    = Raise IndexError.
Proof.
  split.
  - apply (not_streaming_reads_last_event Example.env Example.env_broken
             (Example.str "hi") (VBool false)
             (SamplingParams_defaults Example.env) None
             Example.context (lit "req-0") [] Example.world);
      reflexivity.
  - apply (proj2 (not_streaming_reads_last_event Example.env_empty_final
                    Example.env_empty_final
                    (Example.str "hi") (VBool false)
                    (SamplingParams_defaults Example.env) None
                    Example.context (lit "req-0") [] Example.world
                    eq_refl eq_refl eq_refl eq_refl)
             ltac:(by vm_compute) (mkRequestOutput true []));
      reflexivity.
Defined.

(** ** The fallback to the body *)

(** X17.  A [data] field that is present but falsy (an empty mapping,
    empty bytes, a null) is passed over: the request is handled as if
    its [body] field had been its [data]. *)
Theorem falsy_data_falls_back_to_body (env : Env) (item : attrs) (d b : PyVal)
    (ctx : Context) (w : World)
    (Hdata : item !! lit "data" = Some d)
    (Hfalsy : py_truthy d = false)
    (Hbody : item !! lit "body" = Some b)
    (Htruthy : py_truthy b = true) :
  handle env [VDict item] ctx w
  = handle env [VDict (<[lit "data" := b]> ∅)] ctx w.
Proof.
  unfold handle, preprocess, mbind, M_bind, lift. simpl.
  rewrite Hdata, Hbody, lookup_insert_eq. simpl. by rewrite Hfalsy, Htruthy.
Qed.

Lemma falsy_data_falls_back_to_body_witness :
  handle Example.env
    [Example.dict [("data", VDict ∅);
                   ("body", VDict (Example.request [("prompt", Example.str "ok")]))]]
    Example.context Example.world
  = handle Example.env
      [VDict (Example.item (VDict (Example.request [("prompt", Example.str "ok")])))]
      Example.context Example.world.
Proof.
  apply (falsy_data_falls_back_to_body Example.env _ (VDict ∅)
           (VDict (Example.request [("prompt", Example.str "ok")])));
    reflexivity.
Defined.
